(** * Stealth script generator: a shallow embedding and its properties

    The repository holds two variants of one TypeScript module: the enhanced
    generator [src/stealth.ts] and a smaller variant with fewer patch groups
    and a shorter flag list.  Both export [generateStealthScript] (a
    JavaScript payload assembled from template literals, selected by a
    configuration object) and [generateStealthArgs] (a list of Chromium
    launch flags).

    The embedding keeps the shape of the source: a JavaScript value type with
    the strict comparison the guards use, a state-and-exception monad for the
    statements ([scripts.push], property reads, [Math.random()]), and the
    functions written statement by statement in that monad. *)

From Stdlib Require Import ZArith String Ascii List Bool Lia.
From stdpp Require Import base option list gmap strings.

Local Open Scope string_scope.
Local Open Scope Z_scope.

(** ** JavaScript values and operators used by the module *)

Module JS.

(** The primitive values a configuration field can hold.  A [Number] stands
    for an integer-valued double. *)
Inductive prim : Type :=
| Undefined
| Null
| Bool (b : bool)
| Number (n : Z)
| Str (s : string).

(** A value handed to a function: a primitive, or a plain object whose own
    data properties hold primitives. *)
Inductive value : Type :=
| Prim (p : prim)
| Object (props : gmap string prim).

(** [a === b] on primitives. *)
Definition strict_eq (a b : prim) : bool :=
match a, b with
| Undefined, Undefined => true
| Null, Null => true
| Bool x, Bool y => Bool.eqb x y
| Number x, Number y => Z.eqb x y
| Str x, Str y => String.eqb x y
| _, _ => false
end.

(** [a !== b]. *)
Definition strict_ne (a b : prim) : bool := negb (strict_eq a b).

Inductive exn : Type :=
| TypeError.

(** How the evaluation of an expression or a call ends. *)
Inductive completion (A : Type) : Type :=
| Normal (a : A)
| Throw (e : exn).
Arguments Normal {A} a.
Arguments Throw {A} e.

(** [v.k]: reading a property of [undefined] or [null] throws; a missing
    property reads as [undefined]; the other primitives have none of the keys
    this module reads. *)
Definition get_prop (v : value) (k : string) : completion prim :=
match v with
| Object props => Normal (default Undefined (props !! k))
| Prim Undefined => Throw TypeError
| Prim Null => Throw TypeError
| Prim _ => Normal Undefined
end.

(** The line feed written ['\n'] in the source. *)
Definition LF : ascii := ascii_of_nat 10.
Definition newline : string := String LF EmptyString.

(** [arr.join(sep)] on an array of strings is [String.concat sep arr]. *)
Definition join (sep : string) (arr : list string) : string := String.concat sep arr.

(** [s.startsWith(p)]. *)
Definition startsWith (s p : string) : bool := String.prefix p s.

(** [s.includes(m)]: [m] occurs in [s] at some position. *)
Fixpoint includes (s m : string) : bool :=
match s with
| EmptyString => String.prefix m EmptyString
| String _ rest => String.prefix m s || includes rest m
end.

(** [arr[i]] for an integer-valued [i]: [None] is [undefined]. *)
Definition index (arr : list string) (i : Z) : option string :=
if i <? 0 then None else arr !! Z.to_nat i.

(** [${x}] in a template literal, where [x] is a string or [undefined]. *)
Definition interpolate (x : option string) : string :=
match x with
| Some s => s
| None => "undefined"
end.

(** *** Doubles, as far as [Math.floor(Math.random() * n)] needs them

    A finite non-negative double is [mant * 2^expo].  [Math.random()] yields a
    double in the interval [0, 1): every such double has a 53-bit [mant] and
    an [expo] between -1074 and -53. *)
Record double : Type := { mant : Z; expo : Z }.

Definition in_unit_interval (d : double) : Prop :=
0 <= mant d < 2 ^ 53 /\ -1074 <= expo d <= -53.

(** [x / 2^sh] rounded to the nearest integer, ties to the even one
    (for [0 < sh]). *)
Definition round_shift (x sh : Z) : Z :=
let q := x / 2 ^ sh in
let r := x mod 2 ^ sh in
let half := 2 ^ (sh - 1) in
if r <? half then q
else if half <? r then q + 1
else if Z.even q then q else q + 1.

(** [d * n] for a double [d] and a small non-negative integer [n]: the exact
    product [mant * n * 2^expo] rounded to 53 significant bits. *)
Definition times (d : double) (n : Z) : double :=
let x := mant d * n in
let sh := Z.max 0 (Z.log2 x + 1 - 53) in
if sh =? 0 then {| mant := x; expo := expo d |}
else {| mant := round_shift x sh; expo := expo d + sh |}.

(** [Math.floor(d)]. *)
Definition Math_floor (d : double) : Z :=
if 0 <=? expo d then mant d * 2 ^ expo d else mant d / 2 ^ (- expo d).

End JS.
Import JS.

(** [interface StealthConfig]: an object whose fields are all optional.  A
    field the object does not hold reads as [undefined]. *)
Abbreviation StealthConfig := (gmap string prim).

(** ** The state the two generators run in *)

(** What a call can read or change: the object bound to the parameter
    [config] (the caller's own object, not a copy), the local array
    [scripts], and the ambient randomization source, given as the numbers its
    coming calls will yield. *)
Record World : Type := {
  config : value;
  scripts : list string;
  random : nat -> double;
}.

(** Every number the source will yield lies in [0, 1), as [Math.random()]
    promises. *)
Definition source_ok (w : World) : Prop := forall n : nat, in_unit_interval (random w n).

(** Statements and expressions: they may change the world and may throw. *)
Definition M (A : Type) : Type := World -> completion (A * World).

#[global] Instance M_ret : MRet M := fun (A : Type) (a : A) (w : World) => Normal (a, w).

#[global] Instance M_bind : MBind M := fun (A B : Type) (f : A -> M B) (m : M A) (w : World) =>
match m w with
| Normal (a, w') => f a w'
| Throw e => Throw e
end.

(** [config.k] *)
Definition read_config (k : string) : M prim := fun w =>
match get_prop (config w) k with
| Normal p => Normal (p, w)
| Throw e => Throw e
end.

(** [scripts.push(s)] *)
Definition push (s : string) : M unit := fun w =>
Normal (tt, {| config := config w; scripts := scripts w ++ [s]; random := random w |}).

(** [scripts.join(sep)] *)
Definition join_scripts (sep : string) : M string := fun w =>
Normal (join sep (scripts w), w).

(** [Math.random()]: hands out the next number of the source. *)
Definition Math_random : M double := fun w =>
Normal (random w 0%nat,
        {| config := config w; scripts := scripts w; random := fun n => random w (S n) |}).

(** [config.k !== false] *)
Definition not_false (k : string) : M bool :=
v ← read_config k; mret (strict_ne v (Bool false)).

(** [a || b] on conditions: [b] is evaluated only when [a] is false. *)
Definition or_else (a b : M bool) : M bool :=
x ← a; if (x : bool) then mret true else b.

(** [if (c) { body }] *)
Definition when (c : M bool) (body : M unit) : M unit :=
x ← c; if (x : bool) then body else mret tt.

(** A parameter declared [config = dflt]: a missing or [undefined] argument
    is replaced by the default object. *)
Definition default_parameter (arg : value) (dflt : StealthConfig) : value :=
match arg with
| Prim Undefined => Object dflt
| _ => arg
end.

(** The payload a finished call returned, if it returned. *)
Definition returned {A : Type} (r : completion (A * World)) : option A :=
match r with
| Normal (a, _) => Some a
| Throw _ => None
end.

(** The world a finished call left behind, if it returned. *)
Definition world_after {A : Type} (r : completion (A * World)) : option World :=
match r with
| Normal (_, w) => Some w
| Throw _ => None
end.

(** ** The override recipes

    The template literals of [generateStealthScript], character for character
    (they hold no substitution and no escape sequence).  The smaller variant
    holds the first twenty-six, with the same text. *)

Module Patches.

(** stealth.ts, template literal opening on line 66. *)
Definition patch_webdriver : string :=
"
      Object.defineProperty(navigator, 'webdriver', {
        get: () => undefined,
        configurable: true,
        enumerable: true,
      });
    ".

(** stealth.ts, template literal opening on line 77. *)
Definition patch_languages_extended : string :=
"
      Object.defineProperty(navigator, 'languages', {
        get: () => ['en-US', 'en', 'ja', 'zh-CN'],
        configurable: true,
        enumerable: true,
      });
    ".

(** stealth.ts, template literal opening on line 85. *)
Definition patch_language : string :=
"
      Object.defineProperty(navigator, 'language', {
        get: () => 'en-US',
        configurable: true,
        enumerable: true,
      });
    ".

(** stealth.ts, template literal opening on line 93. *)
Definition patch_languages : string :=
"
      Object.defineProperty(navigator, 'languages', {
        get: () => ['en-US', 'en'],
        configurable: true,
        enumerable: true,
      });
    ".

(** stealth.ts, template literal opening on line 104. *)
Definition patch_platform : string :=
"
      Object.defineProperty(navigator, 'platform', {
        get: () => 'Win32',
        configurable: true,
        enumerable: true,
      });
    ".

(** stealth.ts, template literal opening on line 115. *)
Definition patch_hardwareConcurrency : string :=
"
      Object.defineProperty(navigator, 'hardwareConcurrency', {
        get: () => 4,
        configurable: true,
        enumerable: true,
      });
    ".

(** stealth.ts, template literal opening on line 126. *)
Definition patch_deviceMemory : string :=
"
      Object.defineProperty(navigator, 'deviceMemory', {
        get: () => 8,
        configurable: true,
        enumerable: true,
      });
    ".

(** stealth.ts, template literal opening on line 137. *)
Definition patch_screen_width : string :=
"
      Object.defineProperty(screen, 'width', {
        get: () => 1920,
        configurable: true,
        enumerable: true,
      });
    ".

(** stealth.ts, template literal opening on line 145. *)
Definition patch_screen_height : string :=
"
      Object.defineProperty(screen, 'height', {
        get: () => 1080,
        configurable: true,
        enumerable: true,
      });
    ".

(** stealth.ts, template literal opening on line 153. *)
Definition patch_screen_availWidth : string :=
"
      Object.defineProperty(screen, 'availWidth', {
        get: () => 1920,
        configurable: true,
        enumerable: true,
      });
    ".

(** stealth.ts, template literal opening on line 161. *)
Definition patch_screen_availHeight : string :=
"
      Object.defineProperty(screen, 'availHeight', {
        get: () => 1040,
        configurable: true,
        enumerable: true,
      });
    ".

(** stealth.ts, template literal opening on line 169. *)
Definition patch_devicePixelRatio : string :=
"
      Object.defineProperty(window, 'devicePixelRatio', {
        get: () => 1,
        configurable: true,
        enumerable: true,
      });
    ".

(** stealth.ts, template literal opening on line 177. *)
Definition patch_colorDepth : string :=
"
      Object.defineProperty(screen, 'colorDepth', {
        get: () => 24,
        configurable: true,
        enumerable: true,
      });
    ".

(** stealth.ts, template literal opening on line 188. *)
Definition patch_maxTouchPoints : string :=
"
      Object.defineProperty(navigator, 'maxTouchPoints', {
        get: () => 0,
        configurable: true,
        enumerable: true,
      });
    ".

(** stealth.ts, template literal opening on line 196. *)
Definition patch_touchSupport : string :=
"
      Object.defineProperty(navigator, 'touchSupport', {
        get: () => true,
        configurable: true,
        enumerable: true,
      });
    ".

(** stealth.ts, template literal opening on line 207. *)
Definition patch_chrome : string :=
"
      Object.defineProperty(window, 'chrome', {
        get: () => ({
          runtime: {
            onInstalled: { addListener: () => {} },
            onStartup: { addListener: () => {} },
            onSuspend: { addListener: () => {} },
            onUpdateAvailable: { addListener: () => {} },
            requestUpdateCheck: () => ({ status: 'no_update' }),
            restart: () => {},
            connect: () => ({ onMessage: { addListener: () => {} }, onDisconnect: { addListener: () => {} }, postMessage: () => {}, disconnect: () => {} }),
            sendMessage: () => Promise.resolve({}),
          },
          loadTimes: () => ({
            requestTime: Date.now() / 1000,
            startLoadTime: Date.now() / 1000,
            commitLoadTime: Date.now() / 1000,
            finishLoadTime: Date.now() / 1000,
            firstPaintTime: Date.now() / 1000,
            firstContentfulPaintTime: Date.now() / 1000,
            largestContentfulPaintTime: Date.now() / 1000,
          }),
          csi: () => ({
            startE: Date.now(),
            startS: Date.now(),
            startC: Date.now(),
            startEcs: Date.now(),
            endEcs: Date.now(),
          }),
          app: {
            GET_IS_INSTALLED: () => false,
            INSTALL_TYPE: () => 'none',
            getDetails: () => ({ id: '', isExternal: false, launchURL: '', installedTime: 0, lastUpdateTime: 0 }),
          },
          webstore: {
            onInstallStageChanged: { addListener: () => {} },
            onDownloadProgress: { addListener: () => {} },
            install: () => Promise.resolve(),
          },
          runtime: {
            id: '',
            sendMessage: () => Promise.resolve(),
            onMessageExternal: { addListener: () => {} },
            onConnectExternal: { addListener: () => {} },
          },
        }),
        configurable: true,
        enumerable: true,
      });
    ".

(** stealth.ts, template literal opening on line 261. *)
Definition patch_permissions : string :=
"
      const originalQuery = navigator.permissions.query;
      navigator.permissions.query = (parameters) => {
        if (parameters.name === 'notifications') {
          return Promise.resolve({ state: 'denied', onchange: null });
        }
        return originalQuery(parameters);
      };
    ".

(** stealth.ts, template literal opening on line 274. *)
Definition patch_frameElement : string :=
"
      Object.defineProperty(window, 'frameElement', {
        get: () => null,
        configurable: true,
        enumerable: true,
      });
    ".

(** stealth.ts, template literal opening on line 282. *)
Definition patch_frames : string :=
"
      Object.defineProperty(window, 'frames', {
        get: () => window,
        configurable: true,
        enumerable: true,
      });
    ".

(** stealth.ts, template literal opening on line 293. *)
Definition patch_doNotTrack : string :=
"
      Object.defineProperty(navigator, 'doNotTrack', {
        get: () => 'unspecified',
        configurable: true,
        enumerable: true,
      });
    ".

(** stealth.ts, template literal opening on line 304. *)
Definition patch_plugins : string :=
"
      const pluginData = [
        { name: 'Chrome PDF Plugin', filename: 'internal-pdf-viewer', description: 'Portable Document Format', mimeTypes: [{ type: 'application/pdf', suffixes: 'pdf' }] },
        { name: 'Chrome PDF Viewer', filename: 'mhjfbmdgcfjbbpaeojofohoefgiehjai', description: 'Portable Document Format', mimeTypes: [{ type: 'application/pdf', suffixes: 'pdf' }] },
        { name: 'Native Client', filename: 'internal-nacl-plugin', description: 'Native Client executable', mimeTypes: [{ type: 'application/x-nacl', suffixes: '' }, { type: 'application/x-pnacl', suffixes: '' }] },
      ];
      
      Object.defineProperty(navigator, 'plugins', {
        get: () => pluginData,
        configurable: true,
        enumerable: true,
      });
    ".

(** stealth.ts, template literal opening on line 318. *)
Definition patch_mimeTypes : string :=
"
      Object.defineProperty(navigator, 'mimeTypes', {
        get: () => {
          const mimeTypes = [];
          navigator.plugins.forEach((plugin) => {
            plugin.forEach((mimeType) => {
              mimeTypes.push(mimeType);
            });
          });
          return mimeTypes;
        },
        configurable: true,
        enumerable: true,
      });
    ".

(** stealth.ts, template literal opening on line 337. *)
Definition patch_mediaDevices : string :=
"
      Object.defineProperty(navigator, 'mediaDevices', {
        get: () => ({
          enumerateDevices: () => Promise.resolve([
            { deviceId: 'default', kind: 'audioinput', label: 'Default - Microphone', groupId: 'default' },
            { deviceId: 'default', kind: 'videoinput', label: 'Default - Camera', groupId: 'default' },
          ]),
          getUserMedia: () => Promise.reject(new Error('Not allowed')),
          getDisplayMedia: () => Promise.reject(new Error('Not allowed')),
          addEventListener: () => {},
          removeEventListener: () => {},
          dispatchEvent: () => true,
        }),
        configurable: true,
        enumerable: true,
      });
    ".

(** stealth.ts, template literal opening on line 357. *)
Definition patch_webgl_vendor : string :=
"
    const getParameter = WebGLRenderingContext.prototype.getParameter;
    WebGLRenderingContext.prototype.getParameter = function(parameter) {
      if (parameter === 37445) {
        return 'Intel Open Source Technology Center';
      }
      if (parameter === 37446) {
        return 'Mesa DRI Intel(R) UHD Graphics 630 (CFL GT2)';
      }
      return getParameter.call(this, parameter);
    };
  ".

(** stealth.ts, template literal opening on line 371. *)
Definition patch_userActivation : string :=
"
    // Remove CDP automation flags
    Object.defineProperty(navigator, 'userActivation', {
      get: () => ({ isActive: true, hasBeenActive: true }),
      configurable: true,
    });
  ".

(** stealth.ts, template literal opening on line 380. *)
Definition patch_connection : string :=
"
    Object.defineProperty(navigator, 'connection', {
      get: () => ({
        downlink: 10,
        effectiveType: '4g',
        rtt: 50,
        saveData: false,
        type: 'wifi',
        addEventListener: () => {},
        removeEventListener: () => {},
        dispatchEvent: () => true,
      }),
      configurable: true,
      enumerable: true,
    });
  ".

(** stealth.ts, template literal opening on line 401. *)
Definition patch_canvasNoise : string :=
"
      // Canvas fingerprint spoofing with random noise
      const canvasNoise = () => {
        const noise = Math.random() * 0.000001;
        return noise;
      };
      
      const originalToDataURL = HTMLCanvasElement.prototype.toDataURL;
      HTMLCanvasElement.prototype.toDataURL = function(type, encoderOptions) {
        if (this.width === 0 || this.height === 0) {
          return originalToDataURL.call(this, type, encoderOptions);
        }
        const ctx = this.getContext('2d');
        if (ctx) {
          // Add subtle noise to pixel data
          const imageData = ctx.getImageData(0, 0, this.width, this.height);
          const data = imageData.data;
          for (let i = 0; i < data.length; i += 4) {
            const noise = (Math.random() - 0.5) * 2;
            data[i] = Math.max(0, Math.min(255, data[i] + noise));
            data[i + 1] = Math.max(0, Math.min(255, data[i + 1] + noise));
            data[i + 2] = Math.max(0, Math.min(255, data[i + 2] + noise));
          }
          ctx.putImageData(imageData, 0, 0);
        }
        return originalToDataURL.call(this, type, encoderOptions);
      };
      
      const originalGetImageData = CanvasRenderingContext2D.prototype.getImageData;
      CanvasRenderingContext2D.prototype.getImageData = function(sx, sy, sw, sh) {
        const data = originalGetImageData.call(this, sx, sy, sw, sh);
        // Add slight noise to prevent exact fingerprinting
        for (let i = 0; i < data.data.length; i++) {
          if (Math.random() > 0.99) {
            data.data[i] = (data.data[i] + Math.random() * 0.5) % 256;
          }
        }
        return data;
      };
    ".

(** stealth.ts, template literal opening on line 445. *)
Definition patch_webglNoise : string :=
"
      // WebGL fingerprint spoofing
      const webglNoise = () => {
        return Math.random() * 0.0001;
      };
      
      // Spoof WebGL vendor and renderer
      const getParameter = WebGLRenderingContext.prototype.getParameter;
      WebGLRenderingContext.prototype.getParameter = function(parameter) {
        // Add noise to numeric parameters
        if (typeof parameter === 'number') {
          const noise = webglNoise();
          const original = getParameter.call(this, parameter);
          if (typeof original === 'number') {
            return original + noise;
          }
        }
        
        // Spoof vendor strings
        if (parameter === 37445) {
          return 'NVIDIA Corporation';
        }
        if (parameter === 37446) {
          return 'GeForce RTX 3080/PCIe/SSE2';
        }
        if (parameter === 7937) {
          return 'WebKit';
        }
        if (parameter === 7938) {
          return 'WebGL 2.0';
        }
        return getParameter.call(this, parameter);
      };
      
      // Add noise to WebGL rendering
      const originalClear = WebGLRenderingContext.prototype.clear;
      WebGLRenderingContext.prototype.clear = function(mask) {
        // Randomize clear color slightly
        if (Math.random() > 0.95) {
          this.clearColor(
            Math.random() * 0.1,
            Math.random() * 0.1,
            Math.random() * 0.1,
            1.0
          );
        }
        return originalClear.call(this, mask);
      };
      
      // Spoof WebGL2 parameters
      const getParameter2 = WebGL2RenderingContext.prototype.getParameter;
      WebGL2RenderingContext.prototype.getParameter = function(parameter) {
        if (parameter === 37445) {
          return 'NVIDIA Corporation';
        }
        if (parameter === 37446) {
          return 'GeForce RTX 3080/PCIe/SSE2';
        }
        return getParameter2.call(this, parameter);
      };
    ".

(** stealth.ts, template literal opening on line 510. *)
Definition patch_audioContextNoise : string :=
"
      // AudioContext fingerprint spoofing
      const audioNoise = () => {
        return Math.random() * 0.0000001;
      };
      
      const originalGetChannelData = AudioContext.prototype.createBuffer;
      AudioContext.prototype.createBuffer = function(numberOfChannels, length, sampleRate) {
        const buffer = originalGetChannelData.call(this, numberOfChannels, length, sampleRate);
        // Add tiny noise to prevent exact fingerprinting
        for (let i = 0; i < buffer.numberOfChannels; i++) {
          const channelData = buffer.getChannelData(i);
          for (let j = 0; j < channelData.length; j += 1000) {
            channelData[j] += audioNoise();
          }
        }
        return buffer;
      };
      
      const originalDecodeAudioData = AudioContext.prototype.decodeAudioData;
      AudioContext.prototype.decodeAudioData = function(audioData, successCallback, errorCallback) {
        const success = successCallback;
        const error = errorCallback;
        return originalDecodeAudioData.call(this, audioData, 
          (decodedBuffer) => {
            // Add noise to decoded buffer
            if (decodedBuffer) {
              for (let i = 0; i < decodedBuffer.numberOfChannels; i++) {
                const channelData = decodedBuffer.getChannelData(i);
                for (let j = 0; j < channelData.length; j += 500) {
                  channelData[j] += audioNoise();
                }
              }
            }
            if (success) success(decodedBuffer);
          },
          error
        );
      };
    ".

(** stealth.ts, template literal opening on line 554. *)
Definition patch_behaviorRandomization : string :=
"
      // Human behavior randomization
      
      // Randomize scroll behavior
      const originalScroll = window.scrollTo;
      window.scrollTo = function(x, y) {
        if (typeof x === 'object') {
          x = x.left || 0;
          y = x.top || 0;
        }
        // Add small random offset
        const randomX = x + (Math.random() - 0.5) * 10;
        const randomY = y + (Math.random() - 0.5) * 10;
        originalScroll.call(this, Math.max(0, randomX), Math.max(0, randomY));
      };
      
      // Add random mouse movements simulation
      let mouseMoveCount = 0;
      document.addEventListener('mousemove', () => {
        mouseMoveCount++;
      });
      
      // Randomize click timing
      const originalClick = HTMLElement.prototype.click;
      HTMLElement.prototype.click = function() {
        // Simulate human-like delay
        const delay = Math.random() * 50 + 10;
        setTimeout(() => {
          originalClick.call(this);
        }, delay);
      };
      
      // Randomize focus events
      const originalFocus = HTMLElement.prototype.focus;
      HTMLElement.prototype.focus = function() {
        const delay = Math.random() * 30 + 5;
        setTimeout(() => {
          originalFocus.call(this);
        }, delay);
      };
      
      // Spoof document.hidden
      Object.defineProperty(document, 'hidden', {
        get: () => false,
        configurable: true,
      });
      
      Object.defineProperty(document, 'visibilityState', {
        get: () => 'visible',
        configurable: true,
      });
      
      // Add random viewport offset
      Object.defineProperty(window, 'scrollX', {
        get: () => Math.floor(Math.random() * 5),
        configurable: true,
      });
      
      Object.defineProperty(window, 'scrollY', {
        get: () => Math.floor(Math.random() * 5),
        configurable: true,
      });
      
      // Randomize Performance API
      const originalNow = performance.now;
      performance.now = function() {
        const now = originalNow.call(this);
        // Add small random offset to prevent timing fingerprinting
        return now + (Math.random() - 0.5) * 0.5;
      };
      
      // Add random variation to Date
      const originalDate = Date;
      Date = function(...args) {
        if (args.length === 0) {
          return new originalDate(originalDate.now() + (Math.random() - 0.5) * 100);
        }
        return new originalDate(...args);
      };
      Date.now = function() {
        return originalDate.now() + (Math.random() - 0.5) * 100;
      };
    ".

(** stealth.ts, template literal opening on line 640. *)
Definition patch_speechSynthesis : string :=
"
    Object.defineProperty(window, 'speechSynthesis', {
      get: () => ({
        pending: false,
        speaking: false,
        paused: false,
        addEventListener: () => {},
        removeEventListener: () => {},
        dispatchEvent: () => true,
        cancel: () => {},
        speak: () => {},
        pause: () => {},
        resume: () => {},
        getVoices: () => [],
      }),
      configurable: true,
    });
  ".

(** stealth.ts, template literal opening on line 660. *)
Definition patch_getGamepads : string :=
"
    Object.defineProperty(navigator, 'getGamepads', {
      get: () => () => Array(4).fill(null),
      configurable: true,
    });
  ".

(** stealth.ts, template literal opening on line 668. *)
Definition patch_getBattery : string :=
"
    Object.defineProperty(navigator, 'getBattery', {
      get: () => () => Promise.resolve({
        charging: true,
        chargingTime: 0,
        dischargingTime: Infinity,
        level: 1,
        addEventListener: () => {},
        removeEventListener: () => {},
      }),
      configurable: true,
    });
  ".

(** stealth.ts, template literal opening on line 683. *)
Definition patch_clipboard : string :=
"
    Object.defineProperty(navigator, 'clipboard', {
      get: () => ({
        readText: () => Promise.reject(new Error('Clipboard access denied')),
        writeText: () => Promise.reject(new Error('Clipboard access denied')),
        read: () => Promise.reject(new Error('Clipboard access denied')),
        write: () => Promise.reject(new Error('Clipboard access denied')),
        addEventListener: () => {},
        removeEventListener: () => {},
      }),
      configurable: true,
    });
  ".

(** All recipes, in source order. *)
Definition all : list string :=
[ patch_webdriver; patch_languages_extended; patch_language; patch_languages;
  patch_platform; patch_hardwareConcurrency; patch_deviceMemory;
  patch_screen_width; patch_screen_height; patch_screen_availWidth;
  patch_screen_availHeight; patch_devicePixelRatio; patch_colorDepth;
  patch_maxTouchPoints; patch_touchSupport; patch_chrome; patch_permissions;
  patch_frameElement; patch_frames; patch_doNotTrack; patch_plugins;
  patch_mimeTypes; patch_mediaDevices; patch_webgl_vendor;
  patch_userActivation; patch_connection; patch_canvasNoise; patch_webglNoise;
  patch_audioContextNoise; patch_behaviorRandomization; patch_speechSynthesis;
  patch_getGamepads; patch_getBattery; patch_clipboard ].

End Patches.
Import Patches.


(** ** The generator as a catalogue of gated groups

    The specification describes [generateStealthScript] as a filter over an
    ordered catalogue of patch groups, each gated by configuration keys or
    unconditional.  The definitions below follow that description; the
    lemmas [Enhanced_script_run] and [Basic_script_run] show that the
    functions of the source compute exactly this. *)

(** A patch group: the keys that gate it ([None] for a group pushed
    unconditionally) and the recipes it pushes, in order.  A gated group is
    pushed when at least one of its keys is not [false]. *)
Record group : Type := {
  gate : option (list string);
  recipes : list string;
}.

(** [undefined] and [null] have no properties. *)
Definition nullish (v : value) : bool :=
match v with
| Prim Undefined => true
| Prim Null => true
| _ => false
end.

(** What [v.k] yields when [v] is not nullish. *)
Definition field (v : value) (k : string) : prim :=
match v with
| Object props => default Undefined (props !! k)
| Prim _ => Undefined
end.

(** The key [k] is not explicitly [false] in [v]. *)
Definition enabled (v : value) (k : string) : bool := strict_ne (field v k) (Bool false).

Definition active (v : value) (g : group) : bool :=
match gate g with
| None => true
| Some keys => existsb (enabled v) keys
end.

(** The recipes of the active groups, in catalogue order. *)
Definition select (v : value) (catalog : list group) : list string :=
flat_map (fun g => if active v g then recipes g else []) catalog.

Definition payload (v : value) (catalog : list group) : string :=
join newline (select v catalog).

(** Every key that gates some group of the catalogue. *)
Definition gate_keys (catalog : list group) : list string :=
flat_map (fun g => default [] (gate g)) catalog.

(** A text with no line feed in it. *)
Fixpoint single_line (m : string) : bool :=
match m with
| EmptyString => true
| String x rest => negb (Ascii.eqb x LF) && single_line rest
end.

Fixpoint skip_LF (s : string) : string :=
match s with
| EmptyString => EmptyString
| String x rest => if Ascii.eqb x LF then skip_LF rest else s
end.

Fixpoint until_LF (s : string) : string :=
match s with
| EmptyString => EmptyString
| String x rest => if Ascii.eqb x LF then EmptyString else String x (until_LF rest)
end.

(** The first line of a recipe that is not empty: the line that names the
    property the recipe overrides (or, for the noise recipes, their heading
    comment). *)
Definition first_line (recipe : string) : string := until_LF (skip_LF recipe).

(** The first line of [recipe], a recipe of the group [g], occurs in no
    recipe of a group with another gate. *)
Definition distinguishes (catalog : list group) (g : group) (recipe : string) : bool :=
let m := first_line recipe in
negb (String.eqb m "") && single_line m && includes recipe m &&
forallb (fun g' => bool_decide (gate g' = gate g) ||
                   forallb (fun r => negb (includes r m)) (recipes g')) catalog.

(** Every recipe of every gated group is told apart by its first line. *)
Definition separated (catalog : list group) : bool :=
forallb (fun g => match gate g with
                  | None => true
                  | Some _ => forallb (distinguishes catalog g) (recipes g)
                  end) catalog.

(** How statements act on a world whose [config] is [v]: [appends v m l]
    says that [m] pushes the strings [l] and changes nothing else,
    [decides v c b] that the condition [c] yields [b] and changes nothing,
    [finishes v k l] that [k] pushes [l] and returns the joined array. *)
Definition appends (v : value) (m : M unit) (l : list string) : Prop :=
forall w : World, config w = v ->
  m w = Normal (tt, {| config := v; scripts := scripts w ++ l; random := random w |}).

Definition decides (v : value) (c : M bool) (b : bool) : Prop :=
forall w : World, config w = v -> c w = Normal (b, w).

Definition finishes (v : value) (k : M string) (l : list string) : Prop :=
forall w : World, config w = v ->
  k w = Normal (join newline (scripts w ++ l),
                {| config := v; scripts := scripts w ++ l; random := random w |}).

(** ** The enhanced generator, [src/stealth.ts] *)

Module Enhanced.

Definition defaultStealthConfig : StealthConfig :=
list_to_map
  [ ("webdriver", Bool true);
    ("navigator", Bool true);
    ("navigatorLanguages", Bool true);
    ("navigatorPlatform", Bool true);
    ("navigatorHardwareConcurrency", Bool true);
    ("navigatorDeviceMemory", Bool true);
    ("screenWidth", Bool true);
    ("screenHeight", Bool true);
    ("pixelRatio", Bool true);
    ("colorDepth", Bool true);
    ("touchSupport", Bool true);
    ("chromeRuntime", Bool true);
    ("permissions", Bool true);
    ("windowFrame", Bool true);
    ("doNotTrack", Bool false);
    ("plugins", Bool true);
    ("mediaDevices", Bool true);
    ("canvasNoise", Bool true);
    ("webglNoise", Bool true);
    ("audioContextNoise", Bool true);
    ("behaviorRandomization", Bool true) ].

(** The body of [generateStealthScript], one line per statement. *)
Definition generateStealthScript_body : M string :=
when (not_false "webdriver")
  (push patch_webdriver);;
when (not_false "navigator")
  (push patch_languages_extended;;
   push patch_language;;
   push patch_languages);;
when (not_false "navigatorPlatform")
  (push patch_platform);;
when (not_false "navigatorHardwareConcurrency")
  (push patch_hardwareConcurrency);;
when (not_false "navigatorDeviceMemory")
  (push patch_deviceMemory);;
when (or_else (or_else (or_else (not_false "screenWidth") (not_false "screenHeight"))
                       (not_false "pixelRatio"))
              (not_false "colorDepth"))
  (push patch_screen_width;;
   push patch_screen_height;;
   push patch_screen_availWidth;;
   push patch_screen_availHeight;;
   push patch_devicePixelRatio;;
   push patch_colorDepth);;
when (not_false "touchSupport")
  (push patch_maxTouchPoints;;
   push patch_touchSupport);;
when (not_false "chromeRuntime")
  (push patch_chrome);;
when (not_false "permissions")
  (push patch_permissions);;
when (not_false "windowFrame")
  (push patch_frameElement;;
   push patch_frames);;
when (not_false "doNotTrack")
  (push patch_doNotTrack);;
when (not_false "plugins")
  (push patch_plugins;;
   push patch_mimeTypes);;
when (not_false "mediaDevices")
  (push patch_mediaDevices);;
push patch_webgl_vendor;;
push patch_userActivation;;
push patch_connection;;
when (not_false "canvasNoise")
  (push patch_canvasNoise);;
when (not_false "webglNoise")
  (push patch_webglNoise);;
when (not_false "audioContextNoise")
  (push patch_audioContextNoise);;
when (not_false "behaviorRandomization")
  (push patch_behaviorRandomization);;
push patch_speechSynthesis;;
push patch_getGamepads;;
push patch_getBattery;;
push patch_clipboard;;
join_scripts newline.

(** [generateStealthScript(config = defaultStealthConfig)]: an argument that
    is missing or [undefined] is replaced by the default object; [scripts]
    starts empty. *)
Definition generateStealthScript (arg : value) : M string := fun w =>
generateStealthScript_body
  {| config := default_parameter arg defaultStealthConfig; scripts := []; random := random w |}.

Definition chrome_versions : list string := ["131.0.0.0"; "132.0.0.0"; "133.0.0.0"].
Definition safari_versions : list string := ["605.1.15"; "616.4.1"; "617.1.15"].

(** The template literal of [generateRealisticUserAgent], with its one
    substitution [${randomChrome}]. *)
Definition user_agent_template (randomChrome : option string) : string :=
"Mozilla/5.0 (Windows NT 10.0; Win64; x64) AppleWebKit/537.36 (KHTML, like Gecko) Chrome/"
+:+ interpolate randomChrome +:+ " Safari/537.36".

Definition generateRealisticUserAgent : M string :=
r1 ← Math_random;
let randomChrome :=
  index chrome_versions (Math_floor (times r1 (Z.of_nat (length chrome_versions)))) in
r2 ← Math_random;
let randomSafari :=
  index safari_versions (Math_floor (times r2 (Z.of_nat (length safari_versions)))) in
mret (user_agent_template randomChrome).

Definition generateStealthArgs : M (list string) :=
ua ← generateRealisticUserAgent;
mret
  [ "--disable-blink-features=AutomationControlled";
    "--disable-automation";
    "--enable-automation";
    "--disable-dev-shm-usage";
    "--no-sandbox";
    "--disable-setuid-sandbox";
    "--disable-gpu";
    "--disable-dev-shm-usage";
    "--disable-accelerated-2d-canvas";
    "--window-size=1920,1080";
    "--window-position=0,0";
    "--start-maximized";
    "--maximize";
    "--disable-web-security";
    "--disable-features=IsolateOrigins,site-per-process,TranslateUI";
    "--disable-benchmarking";
    "--disable-extensions";
    "--disable-background-networking";
    "--disable-sync";
    "--disable-translate";
    "--metrics-recording-only";
    "--mute-audio";
    "--safebrowsing-disable-auto-update";
    "--safebrowsing-disable-download-protection";
    "--password-store=basic";
    "--use-mock-keychain";
    "--disable-autofill-assistant";
    "--disable-password-generation";
    "--disable-save-password-bubble";
    "--disable-software-rasterizer";
    "--disable-accelerated-video-decode";
    "--disable-frame-rate-limit";
    "--ignore-gpu-blocklist";
    "--disable-ipc-flooding-protection";
    "--disable-prompt-on-repost";
    "--noerrdialogs";
    "--disable-breakpad";
    "--disable-logging";
    "--disable-metrics";
    "--disable-metrics-reporting";
    "--user-agent=" +:+ ua ].

(** The guarded blocks of [generateStealthScript], in source order. *)
Definition catalog : list group :=
[
  {| gate := Some ["webdriver"];
     recipes := [patch_webdriver] |};
  {| gate := Some ["navigator"];
     recipes := [patch_languages_extended; patch_language; patch_languages] |};
  {| gate := Some ["navigatorPlatform"];
     recipes := [patch_platform] |};
  {| gate := Some ["navigatorHardwareConcurrency"];
     recipes := [patch_hardwareConcurrency] |};
  {| gate := Some ["navigatorDeviceMemory"];
     recipes := [patch_deviceMemory] |};
  {| gate := Some ["screenWidth"; "screenHeight"; "pixelRatio"; "colorDepth"];
     recipes := [patch_screen_width; patch_screen_height; patch_screen_availWidth; patch_screen_availHeight; patch_devicePixelRatio; patch_colorDepth] |};
  {| gate := Some ["touchSupport"];
     recipes := [patch_maxTouchPoints; patch_touchSupport] |};
  {| gate := Some ["chromeRuntime"];
     recipes := [patch_chrome] |};
  {| gate := Some ["permissions"];
     recipes := [patch_permissions] |};
  {| gate := Some ["windowFrame"];
     recipes := [patch_frameElement; patch_frames] |};
  {| gate := Some ["doNotTrack"];
     recipes := [patch_doNotTrack] |};
  {| gate := Some ["plugins"];
     recipes := [patch_plugins; patch_mimeTypes] |};
  {| gate := Some ["mediaDevices"];
     recipes := [patch_mediaDevices] |};
  {| gate := None;
     recipes := [patch_webgl_vendor] |};
  {| gate := None;
     recipes := [patch_userActivation] |};
  {| gate := None;
     recipes := [patch_connection] |};
  {| gate := Some ["canvasNoise"];
     recipes := [patch_canvasNoise] |};
  {| gate := Some ["webglNoise"];
     recipes := [patch_webglNoise] |};
  {| gate := Some ["audioContextNoise"];
     recipes := [patch_audioContextNoise] |};
  {| gate := Some ["behaviorRandomization"];
     recipes := [patch_behaviorRandomization] |};
  {| gate := None;
     recipes := [patch_speechSynthesis] |};
  {| gate := None;
     recipes := [patch_getGamepads] |};
  {| gate := None;
     recipes := [patch_getBattery] |};
  {| gate := None;
     recipes := [patch_clipboard] |} ].

End Enhanced.

(** ** The smaller variant of the module *)

Module Basic.

Definition defaultStealthConfig : StealthConfig :=
list_to_map
  [ ("webdriver", Bool true);
    ("navigator", Bool true);
    ("navigatorLanguages", Bool true);
    ("navigatorPlatform", Bool true);
    ("navigatorHardwareConcurrency", Bool true);
    ("navigatorDeviceMemory", Bool true);
    ("screenWidth", Bool true);
    ("screenHeight", Bool true);
    ("pixelRatio", Bool true);
    ("colorDepth", Bool true);
    ("touchSupport", Bool true);
    ("chromeRuntime", Bool true);
    ("permissions", Bool true);
    ("windowFrame", Bool true);
    ("doNotTrack", Bool false);
    ("plugins", Bool true);
    ("mediaDevices", Bool true) ].

Definition generateStealthScript_body : M string :=
when (not_false "webdriver")
  (push patch_webdriver);;
when (not_false "navigator")
  (push patch_languages_extended;;
   push patch_language;;
   push patch_languages);;
when (not_false "navigatorPlatform")
  (push patch_platform);;
when (not_false "navigatorHardwareConcurrency")
  (push patch_hardwareConcurrency);;
when (not_false "navigatorDeviceMemory")
  (push patch_deviceMemory);;
when (or_else (or_else (or_else (not_false "screenWidth") (not_false "screenHeight"))
                       (not_false "pixelRatio"))
              (not_false "colorDepth"))
  (push patch_screen_width;;
   push patch_screen_height;;
   push patch_screen_availWidth;;
   push patch_screen_availHeight;;
   push patch_devicePixelRatio;;
   push patch_colorDepth);;
when (not_false "touchSupport")
  (push patch_maxTouchPoints;;
   push patch_touchSupport);;
when (not_false "chromeRuntime")
  (push patch_chrome);;
when (not_false "permissions")
  (push patch_permissions);;
when (not_false "windowFrame")
  (push patch_frameElement;;
   push patch_frames);;
when (not_false "doNotTrack")
  (push patch_doNotTrack);;
when (not_false "plugins")
  (push patch_plugins;;
   push patch_mimeTypes);;
when (not_false "mediaDevices")
  (push patch_mediaDevices);;
push patch_webgl_vendor;;
push patch_userActivation;;
push patch_connection;;
join_scripts newline.

Definition generateStealthScript (arg : value) : M string := fun w =>
generateStealthScript_body
  {| config := default_parameter arg defaultStealthConfig; scripts := []; random := random w |}.

Definition generateStealthArgs : M (list string) :=
mret
  [ "--disable-blink-features=AutomationControlled";
    "--disable-dev-shm-usage";
    "--no-sandbox";
    "--window-size=1920,1080";
    "--start-maximized";
    "--disable-web-security";
    "--disable-features=IsolateOrigins,site-per-process";
    "--disable-benchmarking";
    "--disable-extensions";
    "--disable-background-networking";
    "--disable-sync";
    "--disable-translate";
    "--metrics-recording-only";
    "--mute-audio";
    "--safebrowsing-disable-auto-update";
    "--enable-automation";
    "--disable-automation";
    "--password-store=basic";
    "--use-mock-keychain" ].

(** The guarded blocks of [generateStealthScript], in source order. *)
Definition catalog : list group :=
[
  {| gate := Some ["webdriver"];
     recipes := [patch_webdriver] |};
  {| gate := Some ["navigator"];
     recipes := [patch_languages_extended; patch_language; patch_languages] |};
  {| gate := Some ["navigatorPlatform"];
     recipes := [patch_platform] |};
  {| gate := Some ["navigatorHardwareConcurrency"];
     recipes := [patch_hardwareConcurrency] |};
  {| gate := Some ["navigatorDeviceMemory"];
     recipes := [patch_deviceMemory] |};
  {| gate := Some ["screenWidth"; "screenHeight"; "pixelRatio"; "colorDepth"];
     recipes := [patch_screen_width; patch_screen_height; patch_screen_availWidth; patch_screen_availHeight; patch_devicePixelRatio; patch_colorDepth] |};
  {| gate := Some ["touchSupport"];
     recipes := [patch_maxTouchPoints; patch_touchSupport] |};
  {| gate := Some ["chromeRuntime"];
     recipes := [patch_chrome] |};
  {| gate := Some ["permissions"];
     recipes := [patch_permissions] |};
  {| gate := Some ["windowFrame"];
     recipes := [patch_frameElement; patch_frames] |};
  {| gate := Some ["doNotTrack"];
     recipes := [patch_doNotTrack] |};
  {| gate := Some ["plugins"];
     recipes := [patch_plugins; patch_mimeTypes] |};
  {| gate := Some ["mediaDevices"];
     recipes := [patch_mediaDevices] |};
  {| gate := None;
     recipes := [patch_webgl_vendor] |};
  {| gate := None;
     recipes := [patch_userActivation] |};
  {| gate := None;
     recipes := [patch_connection] |} ].

End Basic.

(** ** Concrete inputs *)

(** The boolean fields of [interface StealthConfig]. *)
Definition Enhanced_boolean_fields : list string :=
[ "webdriver"; "navigator"; "navigatorLanguages"; "navigatorPlatform";
  "navigatorHardwareConcurrency"; "navigatorDeviceMemory"; "screenWidth";
  "screenHeight"; "pixelRatio"; "colorDepth"; "touchSupport"; "chromeRuntime";
  "permissions"; "windowFrame"; "doNotTrack"; "plugins"; "mediaDevices";
  "canvasNoise"; "webglNoise"; "audioContextNoise"; "behaviorRandomization" ].

(** The configuration with every boolean field set to [false]. *)
Definition all_false : StealthConfig :=
list_to_map (map (fun k => (k, Bool false)) Enhanced_boolean_fields).

(** The double 0 and the largest double below 1. *)
Definition zero : double := {| mant := 0; expo := -53 |}.
Definition almost_one : double := {| mant := 2 ^ 53 - 1; expo := -53 |}.

(** A world whose source yields [d] at every call. *)
Definition world_yielding (d : double) : World :=
{| config := Prim Undefined; scripts := []; random := fun _ => d |}.

(** The static flags of the enhanced [generateStealthArgs]: all entries but
    the last. *)
Definition Enhanced_static_flags : list string :=
[ "--disable-blink-features=AutomationControlled";
  "--disable-automation";
  "--enable-automation";
  "--disable-dev-shm-usage";
  "--no-sandbox";
  "--disable-setuid-sandbox";
  "--disable-gpu";
  "--disable-dev-shm-usage";
  "--disable-accelerated-2d-canvas";
  "--window-size=1920,1080";
  "--window-position=0,0";
  "--start-maximized";
  "--maximize";
  "--disable-web-security";
  "--disable-features=IsolateOrigins,site-per-process,TranslateUI";
  "--disable-benchmarking";
  "--disable-extensions";
  "--disable-background-networking";
  "--disable-sync";
  "--disable-translate";
  "--metrics-recording-only";
  "--mute-audio";
  "--safebrowsing-disable-auto-update";
  "--safebrowsing-disable-download-protection";
  "--password-store=basic";
  "--use-mock-keychain";
  "--disable-autofill-assistant";
  "--disable-password-generation";
  "--disable-save-password-bubble";
  "--disable-software-rasterizer";
  "--disable-accelerated-video-decode";
  "--disable-frame-rate-limit";
  "--ignore-gpu-blocklist";
  "--disable-ipc-flooding-protection";
  "--disable-prompt-on-repost";
  "--noerrdialogs";
  "--disable-breakpad";
  "--disable-logging";
  "--disable-metrics";
  "--disable-metrics-reporting" ].

(** The world [Math.random()] leaves after [n] calls. *)
Definition after_draws (n : nat) (w : World) : World :=
{| config := config w; scripts := scripts w; random := fun i => random w (n + i)%nat |}.

(** ** Facts about the string operators *)

Section Strings.

Lemma append_nil (b : string) : "" +:+ b = b.
Proof. reflexivity. Qed.

Lemma append_cons (x : ascii) (a b : string) : String x a +:+ b = String x (a +:+ b).
Proof. reflexivity. Qed.

Lemma append_assoc (a b c : string) : (a +:+ b) +:+ c = a +:+ (b +:+ c).
Proof.
  induction a as [|x a IH]; [reflexivity|].
  rewrite !append_cons. f_equal. exact IH.
Qed.

Lemma append_empty_r (a : string) : a +:+ "" = a.
Proof.
  induction a as [|x a IH]; [reflexivity|].
  rewrite append_cons. f_equal. exact IH.
Qed.

Lemma prefix_empty (s : string) : String.prefix "" s = true.
Proof. now destruct s. Qed.

Lemma prefix_cons (x y : ascii) (m s : string) :
  String.prefix (String x m) (String y s) = true <-> x = y /\ String.prefix m s = true.
Proof.
  simpl. destruct (ascii_dec x y) as [->|Hne]; split.
  - now intros H.
  - now intros [_ H].
  - discriminate.
  - intros [H _]. contradiction.
Qed.

(** [String.prefix m s] holds exactly when [s] is [m] followed by something. *)
Lemma prefix_spec (m s : string) :
  String.prefix m s = true <-> exists rest, s = m +:+ rest.
Proof.
  revert s. induction m as [|x m IH]; intros s.
  - rewrite prefix_empty. split; [intros _; now exists s | reflexivity].
  - destruct s as [|y s].
    + simpl. split; [discriminate | intros [rest H]; discriminate].
    + rewrite prefix_cons, IH. split.
      * intros [-> [rest ->]]. now exists rest.
      * intros [rest H]. rewrite append_cons in H. injection H as -> ->.
        split; [reflexivity | now exists rest].
Qed.

Lemma includes_nil (m : string) : includes "" m = String.prefix m "".
Proof. reflexivity. Qed.

Lemma includes_cons (x : ascii) (s m : string) :
  includes (String x s) m = String.prefix m (String x s) || includes s m.
Proof. reflexivity. Qed.

(** [includes s m] holds exactly when [m] occurs somewhere inside [s]. *)
Lemma includes_spec (s m : string) :
  includes s m = true <-> exists before after, s = before +:+ m +:+ after.
Proof.
  induction s as [|x s IH].
  - rewrite includes_nil, prefix_spec. split.
    + intros [rest H]. exists "", rest. exact H.
    + intros [before [after H]]. destruct before; [|discriminate]. now exists after.
  - rewrite includes_cons, orb_true_iff, IH, prefix_spec. split.
    + intros [[rest H] | [before [after ->]]].
      * exists "", rest. exact H.
      * now exists (String x before), after.
    + intros [[|y before] [after H]].
      * left. now exists after.
      * right. rewrite append_cons in H. injection H as -> ->. now exists before, after.
Qed.

(** What occurs in an occurrence occurs in the whole. *)
Lemma includes_trans (s c m : string) :
  includes s c = true -> includes c m = true -> includes s m = true.
Proof.
  rewrite !includes_spec. intros [b1 [a1 ->]] [b2 [a2 ->]].
  exists (b1 +:+ b2), (a2 +:+ a1). now rewrite !append_assoc.
Qed.

(** Every element of an array occurs in its [join]. *)
Lemma includes_join (sep c : string) (arr : list string) :
  In c arr -> includes (join sep arr) c = true.
Proof.
  unfold join. induction arr as [|a arr IH]; [contradiction|].
  intros [-> | Hin]; apply includes_spec.
  - destruct arr as [|b arr].
    + exists "", "". cbn [String.concat]. now rewrite append_nil, append_empty_r.
    + now exists "", (sep +:+ String.concat sep (b :: arr)).
  - specialize (IH Hin). apply includes_spec in IH as [before [after IH]].
    destruct arr as [|b arr]; [contradiction|].
    exists (a +:+ sep +:+ before), after.
    change (String.concat sep (a :: b :: arr)) with (a +:+ sep +:+ String.concat sep (b :: arr)).
    now rewrite IH, !append_assoc.
Qed.

Lemma prefix_before_LF (m a b : string) :
  single_line m = true ->
  String.prefix m (a +:+ String LF b) = true -> String.prefix m a = true.
Proof.
  revert a. induction m as [|x m IH]; intros a Hm H; [apply prefix_empty|].
  simpl in Hm. apply andb_true_iff in Hm as [Hx Hm]. apply negb_true_iff in Hx.
  destruct a as [|y a].
  - rewrite append_nil in H. apply prefix_cons in H as [-> _]. now rewrite Ascii.eqb_refl in Hx.
  - rewrite append_cons in H. apply prefix_cons in H as [-> H]. apply prefix_cons. eauto.
Qed.

(** A single-line text inside [a LF b] lies inside [a] or inside [b]. *)
Lemma includes_across_LF (m a b : string) :
  single_line m = true ->
  includes (a +:+ String LF b) m = true -> includes a m = true \/ includes b m = true.
Proof.
  intros Hm. induction a as [|y a IH]; intros H.
  - rewrite append_nil, includes_cons in H. apply orb_true_iff in H as [H | H]; [|now right].
    left. destruct m as [|x m]; [reflexivity|].
    apply prefix_cons in H as [-> _]. cbn [single_line] in Hm.
    rewrite Ascii.eqb_refl in Hm. discriminate Hm.
  - rewrite append_cons, includes_cons, <- append_cons in H.
    apply orb_true_iff in H as [H | H].
    + left. apply (prefix_before_LF _ (String y a)) in H; [|exact Hm].
      rewrite includes_cons, H. reflexivity.
    + destruct (IH H) as [Ha | Hb]; [left | now right].
      rewrite includes_cons, Ha. apply orb_true_r.
Qed.

(** A non-empty single-line text inside [arr.join('\n')] lies inside one
    element of [arr]: it cannot straddle a separator. *)
Lemma includes_join_newline (m : string) (arr : list string) :
  single_line m = true -> m <> "" ->
  includes (join newline arr) m = true -> exists c, In c arr /\ includes c m = true.
Proof.
  intros Hm Hne. unfold join. induction arr as [|a arr IH]; intros H.
  - cbn [String.concat] in H. rewrite includes_nil in H. destruct m; [contradiction | discriminate].
  - destruct arr as [|b arr].
    + exists a. split; [now left | exact H].
    + change (String.concat newline (a :: b :: arr))
        with (a +:+ String LF (String.concat newline (b :: arr))) in H.
      apply includes_across_LF in H as [H | H]; [| |exact Hm].
      * exists a. split; [now left | exact H].
      * destruct (IH H) as [c [Hc Hi]]. exists c. split; [now right | exact Hi].
Qed.

End Strings.

(** ** Running the statements *)

Section Run.

Variable v : value.
Hypothesis not_nullish : nullish v = false.

Lemma get_prop_field (k : string) : get_prop v k = Normal (field v k).
Proof using not_nullish. destruct v as [[| | | |]|]; try discriminate; reflexivity. Qed.

Lemma decides_not_false (k : string) : decides v (not_false k) (enabled v k).
Proof using not_nullish.
  intros w Hw. unfold not_false, read_config, mbind, M_bind.
  rewrite Hw, get_prop_field. reflexivity.
Qed.

Lemma decides_or_else (a b : M bool) (x y : bool) :
  decides v a x -> decides v b y -> decides v (or_else a b) (x || y).
Proof.
  intros Ha Hb w Hw. unfold or_else, mbind, M_bind. rewrite (Ha w Hw).
  destruct x; [reflexivity | exact (Hb w Hw)].
Qed.

Lemma appends_push (s : string) : appends v (push s) [s].
Proof. intros w Hw. unfold push. now rewrite Hw. Qed.

Lemma appends_seq (m1 m2 : M unit) (l1 l2 : list string) :
  appends v m1 l1 -> appends v m2 l2 -> appends v (m1 ;; m2) (l1 ++ l2).
Proof.
  intros H1 H2 w Hw. unfold mbind, M_bind. rewrite (H1 w Hw). rewrite H2 by reflexivity.
  cbn [scripts random]. now rewrite app_assoc.
Qed.

Lemma appends_when (c : M bool) (body : M unit) (b : bool) (l : list string) :
  decides v c b -> appends v body l -> appends v (when c body) (if b then l else []).
Proof.
  intros Hc Hb w Hw. unfold when, mbind, M_bind. rewrite (Hc w Hw).
  destruct b; [exact (Hb w Hw)|].
  destruct w as [cfg scr rnd]. cbn in Hw. subst cfg. cbn. now rewrite app_nil_r.
Qed.

Lemma finishes_join : finishes v (join_scripts newline) [].
Proof.
  intros w Hw. unfold join_scripts. rewrite app_nil_r.
  destruct w as [cfg scr rnd]. cbn in Hw. now subst cfg.
Qed.

Lemma finishes_seq (m : M unit) (k : M string) (l1 l2 : list string) :
  appends v m l1 -> finishes v k l2 -> finishes v (m ;; k) (l1 ++ l2).
Proof.
  intros H1 H2 w Hw. unfold mbind, M_bind. rewrite (H1 w Hw). rewrite H2 by reflexivity.
  cbn [scripts random]. now rewrite app_assoc.
Qed.

Lemma finishes_eq (k : M string) (l l' : list string) :
  finishes v k l -> l = l' -> finishes v k l'.
Proof. now intros H <-. Qed.

(** Symbolic execution of a guarded block or of the whole body. *)
Ltac run_statements :=
  repeat first
    [ apply finishes_join
    | apply appends_push
    | apply decides_not_false
    | eapply finishes_seq
    | eapply appends_seq
    | eapply appends_when
    | eapply decides_or_else ].

Lemma existsb_one (f : string -> bool) (k : string) : existsb f [k] = f k.
Proof. apply orb_false_r. Qed.

Lemma existsb_four (f : string -> bool) (a b c d : string) :
  existsb f [a; b; c; d] = f a || f b || f c || f d.
Proof. cbn [existsb]. now rewrite orb_false_r, !orb_assoc. Qed.

(** The enhanced body pushes the recipes of the active groups of its
    catalogue and returns them joined by line feeds. *)
Lemma Enhanced_body_finishes :
  finishes v Enhanced.generateStealthScript_body (select v Enhanced.catalog).
Proof using not_nullish.
  eapply finishes_eq.
  - unfold Enhanced.generateStealthScript_body. run_statements.
  - unfold select, Enhanced.catalog, active.
    cbn [flat_map gate recipes app]. rewrite !existsb_one, existsb_four. reflexivity.
Qed.

Lemma Basic_body_finishes :
  finishes v Basic.generateStealthScript_body (select v Basic.catalog).
Proof using not_nullish.
  eapply finishes_eq.
  - unfold Basic.generateStealthScript_body. run_statements.
  - unfold select, Basic.catalog, active.
    cbn [flat_map gate recipes app]. rewrite !existsb_one, existsb_four. reflexivity.
Qed.

End Run.

(** ** What a catalogue of gated groups yields *)

Section Catalogue.

Variable v : value.
Variable catalog : list group.

Lemma in_select (c : string) :
  In c (select v catalog) <->
  exists g, In g catalog /\ active v g = true /\ In c (recipes g).
Proof.
  unfold select. rewrite in_flat_map. split.
  - intros [g [Hg Hc]]. exists g. destruct (active v g); [auto | contradiction].
  - intros [g [Hg [Ha Hc]]]. exists g. now rewrite Ha.
Qed.

(** A recipe of an active group is in the payload. *)
Lemma recipe_included (g : group) (c : string) :
  In g catalog -> active v g = true -> In c (recipes g) ->
  includes (payload v catalog) c = true.
Proof.
  intros Hg Ha Hc. apply includes_join. apply in_select. eauto.
Qed.

Hypothesis catalog_separated : separated catalog = true.

(** A recipe of a gated group that is not active is not in the payload:
    its first line would have to occur in a recipe of an active group. *)
Lemma recipe_excluded (g : group) (c : string) :
  In g catalog -> active v g = false -> In c (recipes g) ->
  includes (payload v catalog) c = false.
Proof using catalog_separated.
  intros Hg Ha Hc. apply not_true_is_false. intros Hin.
  unfold separated in catalog_separated.
  rewrite forallb_forall in catalog_separated. specialize (catalog_separated g Hg).
  destruct (gate g) as [keys|] eqn:Hgate; [|unfold active in Ha; now rewrite Hgate in Ha].
  rewrite forallb_forall in catalog_separated. specialize (catalog_separated c Hc).
  unfold distinguishes in catalog_separated.
  apply andb_true_iff in catalog_separated as [H Hothers].
  apply andb_true_iff in H as [H Hself].
  apply andb_true_iff in H as [Hne Hline].
  apply negb_true_iff, String.eqb_neq in Hne.
  pose proof (includes_trans _ _ _ Hin Hself) as Hm.
  apply includes_join_newline in Hm as [c' [Hc' Hm]]; [|exact Hline|exact Hne].
  apply in_select in Hc' as [g' [Hg' [Ha' Hr]]].
  rewrite forallb_forall in Hothers. specialize (Hothers g' Hg').
  apply orb_true_iff in Hothers as [Hsame | Hnone].
  - apply bool_decide_eq_true in Hsame. unfold active in Ha, Ha'.
    rewrite Hsame, Hgate in Ha'. rewrite Hgate in Ha. congruence.
  - rewrite forallb_forall in Hnone. specialize (Hnone c' Hr).
    apply negb_true_iff in Hnone. congruence.
Qed.

(** In a separated catalogue, a recipe is in the payload exactly when its
    group is active. *)
Lemma recipe_follows_gate (g : group) (c : string) :
  In g catalog -> In c (recipes g) ->
  includes (payload v catalog) c = active v g.
Proof using catalog_separated.
  intros Hg Hc. destruct (active v g) eqn:Ha.
  - now apply (recipe_included g).
  - now apply (recipe_excluded g).
Qed.

End Catalogue.

(** A key is disabled exactly when the object holds [false] under it. *)
Lemma enabled_false (o : StealthConfig) (k : string) :
  enabled (Object o) k = false <-> o !! k = Some (Bool false).
Proof.
  unfold enabled, strict_ne, field. rewrite negb_false_iff.
  destruct (o !! k) as [[| |[|]| |]|]; cbn; split; congruence.
Qed.

Lemma enabled_true (o : StealthConfig) (k : string) :
  enabled (Object o) k = true <-> o !! k <> Some (Bool false).
Proof.
  rewrite <- enabled_false. destruct (enabled (Object o) k); split; congruence.
Qed.

(** A gated group is active exactly when one of its keys is not explicitly
    [false]. *)
Lemma active_gated (o : StealthConfig) (g : group) (keys : list string) :
  gate g = Some keys ->
  active (Object o) g = true <-> exists k, In k keys /\ o !! k <> Some (Bool false).
Proof.
  intros Hg. unfold active. rewrite Hg, existsb_exists.
  split; intros [k [Hk He]]; exists k; split; auto; now apply enabled_true.
Qed.

(** The payload depends on the configuration through the gating keys only. *)
Lemma select_ext (v v' : value) (catalog : list group) :
  (forall k, In k (gate_keys catalog) -> field v k = field v' k) ->
  select v catalog = select v' catalog.
Proof.
  unfold select, gate_keys. induction catalog as [|g cat IH]; intros H; [reflexivity|].
  cbn [flat_map] in *. rewrite IH by (intros k Hk; apply H, in_or_app; now right).
  f_equal. assert (active v g = active v' g) as ->; [|reflexivity].
  unfold active. destruct (gate g) as [keys|]; [|reflexivity].
  cbn [default] in H. clear IH.
  induction keys as [|k keys IHk]; [reflexivity|]. cbn [existsb].
  rewrite IHk.
  - unfold enabled. rewrite (H k); [reflexivity|]. apply in_or_app. left. now left.
  - intros k' Hk'. apply H. apply in_app_or in Hk' as [Hk'|Hk']; apply in_or_app;
      [left; now right | now right].
Qed.

(** ** The two functions compute their catalogue's payload *)

Lemma nullish_default_parameter (arg : value) (dflt : StealthConfig) :
  arg <> Prim Null -> nullish (default_parameter arg dflt) = false.
Proof. destruct arg as [[| | | |]|]; cbn; congruence. Qed.

Lemma Enhanced_script_run (arg : value) (w : World) :
  arg <> Prim Null ->
  let v := default_parameter arg Enhanced.defaultStealthConfig in
  Enhanced.generateStealthScript arg w =
  Normal (payload v Enhanced.catalog,
          {| config := v; scripts := select v Enhanced.catalog; random := random w |}).
Proof.
  intros Harg v. unfold Enhanced.generateStealthScript.
  rewrite (Enhanced_body_finishes v (nullish_default_parameter _ _ Harg)) by reflexivity.
  reflexivity.
Qed.

Lemma Basic_script_run (arg : value) (w : World) :
  arg <> Prim Null ->
  let v := default_parameter arg Basic.defaultStealthConfig in
  Basic.generateStealthScript arg w =
  Normal (payload v Basic.catalog,
          {| config := v; scripts := select v Basic.catalog; random := random w |}).
Proof.
  intros Harg v. unfold Basic.generateStealthScript.
  rewrite (Basic_body_finishes v (nullish_default_parameter _ _ Harg)) by reflexivity.
  reflexivity.
Qed.

(** [null] is outside the declared parameter type; the first property read
    throws on it. *)
Lemma Enhanced_script_null (w : World) :
  Enhanced.generateStealthScript (Prim Null) w = Throw TypeError.
Proof. reflexivity. Qed.

Lemma Enhanced_separated : separated Enhanced.catalog = true.
Proof. vm_compute. reflexivity. Qed.

Lemma Basic_separated : separated Basic.catalog = true.
Proof. vm_compute. reflexivity. Qed.

(** ** [Math.floor(Math.random() * 3)] is an index of a three-element array *)

Lemma floor_shift_bound (q a b k : Z) :
  0 <= q < (k + 1) * 2 ^ a -> 0 <= a <= b -> 0 <= q / 2 ^ b <= k.
Proof.
  intros [Hq0 Hq] [Ha Hab].
  assert (0 < 2 ^ a) by (apply Z.pow_pos_nonneg; lia).
  assert (2 ^ a <= 2 ^ b) by (apply Z.pow_le_mono_r; lia).
  split; [apply Z.div_pos; lia|].
  assert (q / 2 ^ b <= q / 2 ^ a) by (apply Z.div_le_compat_l; lia).
  assert (q / 2 ^ a < k + 1) by (apply Z.div_lt_upper_bound; lia).
  lia.
Qed.

(** Rounding moves to one of the two neighbours. *)
Lemma round_shift_cases (x sh : Z) :
  let q := x / 2 ^ sh in
  let r := x mod 2 ^ sh in
  (round_shift x sh = q /\ r <= 2 ^ (sh - 1)) \/
  (round_shift x sh = q + 1 /\ 2 ^ (sh - 1) <= r).
Proof.
  intros q r. unfold round_shift. fold q r.
  destruct (Z.ltb_spec r (2 ^ (sh - 1))); [left; lia|].
  destruct (Z.ltb_spec (2 ^ (sh - 1)) r); [right; lia|].
  destruct (Z.even q); [left | right]; lia.
Qed.

(** The product of a double below one and three, rounded, stays below
    three: its floor is 0, 1 or 2. *)
Lemma random_index_range (d : double) :
  in_unit_interval d -> 0 <= Math_floor (times d 3) <= 2.
Proof.
  destruct d as [m e]. unfold in_unit_interval, times, Math_floor. cbn [mant expo].
  change (2 ^ 53) with 9007199254740992. intros [[Hm0 Hm] [He0 He]].
  set (x := m * 3).
  assert (Hx : 0 <= x <= 27021597764222973) by (unfold x; lia).
  destruct (Z_lt_le_dec x 9007199254740992) as [Hlow | Hhigh].
  - (* the product has at most 53 bits: it is exact *)
    assert (Hlog : Z.log2 x < 53).
    { destruct (Z.eq_dec x 0) as [-> | Hnz]; [reflexivity|].
      apply Z.log2_lt_pow2; [lia|]. change (2 ^ 53) with 9007199254740992. lia. }
    replace (Z.max 0 (Z.log2 x + 1 - 53)) with 0 by lia.
    cbn [Z.eqb mant expo].
    destruct (Z.leb_spec 0 e); [lia|].
    assert (0 <= x / 2 ^ (- e) <= 0); [|lia].
    apply (floor_shift_bound x 53 (- e) 0); [|lia].
    change (2 ^ 53) with 9007199254740992. lia.
  - destruct (Z_lt_le_dec x 18014398509481984) as [Hmid | Htop].
    + (* 54 bits: one bit is rounded away *)
      assert (Hlog : Z.log2 x = 53).
      { apply Z.log2_unique; [lia|]. change (2 ^ 53) with 9007199254740992.
        change (2 ^ (53 + 1)) with 18014398509481984. lia. }
      rewrite Hlog. change (Z.max 0 (53 + 1 - 53)) with 1.
      cbn [Z.eqb mant expo].
      destruct (Z.leb_spec 0 (e + 1)); [lia|].
      apply (floor_shift_bound _ 52 (- (e + 1)) 2); [|lia].
      change (2 ^ 52) with 4503599627370496.
      pose proof (round_shift_cases x 1) as Hr. cbn zeta in Hr.
      change (2 ^ 1) with 2 in Hr. change (2 ^ (1 - 1)) with 1 in Hr.
      pose proof (Z.div_mod x 2 ltac:(lia)). pose proof (Z.mod_pos_bound x 2 ltac:(lia)).
      lia.
    + (* 55 bits: two bits are rounded away *)
      assert (Hlog : Z.log2 x = 54).
      { apply Z.log2_unique; [lia|]. change (2 ^ 54) with 18014398509481984.
        change (2 ^ (54 + 1)) with 36028797018963968. lia. }
      rewrite Hlog. change (Z.max 0 (54 + 1 - 53)) with 2.
      cbn [Z.eqb mant expo].
      destruct (Z.leb_spec 0 (e + 2)); [lia|].
      apply (floor_shift_bound _ 51 (- (e + 2)) 2); [|lia].
      change (2 ^ 51) with 2251799813685248.
      pose proof (round_shift_cases x 2) as Hr. cbn zeta in Hr.
      change (2 ^ 2) with 4 in Hr. change (2 ^ (2 - 1)) with 2 in Hr.
      pose proof (Z.div_mod x 4 ltac:(lia)). pose proof (Z.mod_pos_bound x 4 ltac:(lia)).
      lia.
Qed.

(** The rounding is felt: for the largest double below one third the exact
    product lies below 1, the rounded product is 1 (a tie, resolved to the
    even neighbour), and the index is 1, still inside the array. *)
Example rounded_product_reaches_one :
  let third := {| mant := 6004799503160661; expo := -54 |} in
  in_unit_interval third /\
  mant third * 3 < 2 ^ 54 /\
  times third 3 = {| mant := 2 ^ 53; expo := -53 |} /\
  Math_floor (times third 3) = 1.
Proof. cbv zeta. unfold in_unit_interval. cbn [mant expo]. repeat split; try lia; reflexivity. Qed.

(** Such an index reads one of the three versions, never [undefined]. *)
Lemma index_in_range (arr : list string) (a b c : string) (i : Z) :
  arr = [a; b; c] -> 0 <= i <= 2 -> exists s, index arr i = Some s /\ In s arr.
Proof.
  intros -> Hi. unfold index. destruct (Z.ltb_spec i 0); [lia|].
  assert (i = 0 \/ i = 1 \/ i = 2) as [-> | [-> | ->]] by lia; cbn; eauto 6.
Qed.

(** ** Running the launch-argument generators *)

Lemma Enhanced_user_agent_run (w : World) :
  Enhanced.generateRealisticUserAgent w =
  Normal (Enhanced.user_agent_template
            (index Enhanced.chrome_versions (Math_floor (times (random w 0%nat) 3))),
          after_draws 2 w).
Proof. reflexivity. Qed.

Lemma Enhanced_args_run (w : World) :
  Enhanced.generateStealthArgs w =
  Normal ((Enhanced_static_flags ++
            ["--user-agent=" +:+
             Enhanced.user_agent_template
               (index Enhanced.chrome_versions (Math_floor (times (random w 0%nat) 3)))])%list,
          after_draws 2 w).
Proof. reflexivity. Qed.

(** The value of [randomSafari] never reaches the returned string: the
    second number drawn can be replaced by any other. *)
Lemma user_agent_ignores_second_draw (w : World) (d : double) :
  returned (Enhanced.generateRealisticUserAgent w) =
  returned (Enhanced.generateRealisticUserAgent
              {| config := config w; scripts := scripts w;
                 random := fun n => match n with 1%nat => d | _ => random w n end |}).
Proof. reflexivity. Qed.

Lemma Enhanced_script_returned (arg : value) (w : World) :
  arg <> Prim Null ->
  returned (Enhanced.generateStealthScript arg w) =
  Some (payload (default_parameter arg Enhanced.defaultStealthConfig) Enhanced.catalog).
Proof. intros H. now rewrite Enhanced_script_run. Qed.

Lemma Basic_script_returned (arg : value) (w : World) :
  arg <> Prim Null ->
  returned (Basic.generateStealthScript arg w) =
  Some (payload (default_parameter arg Basic.defaultStealthConfig) Basic.catalog).
Proof. intros H. now rewrite Basic_script_run. Qed.

(** The payload does not depend on the world the call starts in. *)
Lemma Enhanced_script_world_independent (arg : value) (w1 w2 : World) :
  returned (Enhanced.generateStealthScript arg w1) =
  returned (Enhanced.generateStealthScript arg w2).
Proof.
  destruct arg as [[| | | |]|];
    first [ now rewrite !Enhanced_script_returned by discriminate | reflexivity ].
Qed.

Lemma Basic_script_world_independent (arg : value) (w1 w2 : World) :
  returned (Basic.generateStealthScript arg w1) =
  returned (Basic.generateStealthScript arg w2).
Proof.
  destruct arg as [[| | | |]|];
    first [ now rewrite !Basic_script_returned by discriminate | reflexivity ].
Qed.

(** No field other than a gating key influences the payload. *)
Lemma Enhanced_script_ignores (k : string) (x : prim) (o : StealthConfig) (w : World) :
  ~ In k (gate_keys Enhanced.catalog) ->
  returned (Enhanced.generateStealthScript (Object (<[k := x]> o)) w) =
  returned (Enhanced.generateStealthScript (Object (delete k o)) w).
Proof.
  intros Hk. rewrite !Enhanced_script_returned by discriminate.
  cbn [default_parameter]. unfold payload. f_equal. f_equal.
  apply select_ext. intros k' Hk'. cbn [field].
  assert (k <> k') by congruence.
  now rewrite lookup_insert_ne, lookup_delete_ne.
Qed.

Lemma customUserAgent_gates_nothing : ~ In "customUserAgent" (gate_keys Enhanced.catalog).
Proof.
  intros H.
  assert (Hb : forallb (fun k => negb (String.eqb k "customUserAgent"))
                 (gate_keys Enhanced.catalog) = true) by (vm_compute; reflexivity).
  rewrite forallb_forall in Hb. specialize (Hb _ H).
  rewrite String.eqb_refl in Hb. discriminate Hb.
Qed.

Lemma Basic_script_null (w : World) :
  Basic.generateStealthScript (Prim Null) w = Throw TypeError.
Proof. reflexivity. Qed.

(** A call leaves the randomization source as it found it. *)
Lemma Enhanced_script_keeps_source (arg : value) (w w' : World) :
  world_after (Enhanced.generateStealthScript arg w) = Some w' -> random w' = random w.
Proof.
  intros H.
  apply (f_equal (fun r : option World => from_option random (random w) r)) in H.
  destruct arg as [[| | | |]|].
  2: { rewrite Enhanced_script_null in H. symmetry. exact H. }
  all: rewrite Enhanced_script_run in H by discriminate; symmetry; exact H.
Qed.

Lemma Basic_script_keeps_source (arg : value) (w w' : World) :
  world_after (Basic.generateStealthScript arg w) = Some w' -> random w' = random w.
Proof.
  intros H.
  apply (f_equal (fun r : option World => from_option random (random w) r)) in H.
  destruct arg as [[| | | |]|].
  2: { rewrite Basic_script_null in H. symmetry. exact H. }
  all: rewrite Basic_script_run in H by discriminate; symmetry; exact H.
Qed.

(** ** The guard of a recipe, key by key *)

Lemma gated_recipe_iff (o : StealthConfig) (catalog : list group)
    (g : group) (keys : list string) (c : string) :
  separated catalog = true ->
  In g catalog -> gate g = Some keys -> In c (recipes g) ->
  includes (payload (Object o) catalog) c = true <->
  exists k, In k keys /\ o !! k <> Some (Bool false).
Proof.
  intros Hsep Hg Hgate Hc.
  rewrite (recipe_follows_gate _ _ Hsep g c Hg Hc). now apply active_gated.
Qed.

(** The [webdriver] override is there unless [webdriver] is [false]. *)
Example webdriver_recipe_guard (o : StealthConfig) :
  includes (payload (Object o) Enhanced.catalog) patch_webdriver = true <->
  o !! "webdriver" <> Some (Bool false).
Proof.
  rewrite (gated_recipe_iff o Enhanced.catalog
             {| gate := Some ["webdriver"]; recipes := [patch_webdriver] |}
             ["webdriver"] patch_webdriver Enhanced_separated);
    [ | unfold Enhanced.catalog; cbn [In]; tauto | reflexivity | now left ].
  split.
  - intros [k [[<- | []] Hk]]. exact Hk.
  - intros Hk. exists "webdriver". split; [now left | exact Hk].
Qed.

(** The [screen.width] override is missing only when all four screen keys
    are [false]. *)
Example screen_width_recipe_guard (o : StealthConfig) :
  includes (payload (Object o) Enhanced.catalog) patch_screen_width = false <->
  o !! "screenWidth" = Some (Bool false) /\ o !! "screenHeight" = Some (Bool false) /\
  o !! "pixelRatio" = Some (Bool false) /\ o !! "colorDepth" = Some (Bool false).
Proof.
  rewrite (recipe_follows_gate _ _ Enhanced_separated
             {| gate := Some ["screenWidth"; "screenHeight"; "pixelRatio"; "colorDepth"];
                recipes := [patch_screen_width; patch_screen_height;
                            patch_screen_availWidth; patch_screen_availHeight;
                            patch_devicePixelRatio; patch_colorDepth] |}
             patch_screen_width);
    [ | unfold Enhanced.catalog; cbn [In]; tauto | now left ].
  unfold active. cbn [gate existsb].
  rewrite !orb_false_iff, !enabled_false. tauto.
Qed.

(** The recipes are the source's template literals: their lengths. *)
Example patch_lengths :
  map String.length Patches.all =
  [ 153; 174; 150; 159; 150; 155; 148; 141; 142; 146; 147; 149; 144; 150; 151;
    1941; 299; 148; 144; 158; 768; 378; 701; 402; 189; 369; 1668; 1936; 1576;
    2579; 435; 135; 318; 500 ]%nat.
Proof. vm_compute. reflexivity. Qed.

(** The default payloads: every recipe but the [doNotTrack] one, with one
    line feed between neighbours. *)
Example default_payload_lengths :
  (fun p => Z.of_nat (String.length p)) <$>
    returned (Enhanced.generateStealthScript (Prim Undefined) (world_yielding zero))
    = Some 16777 /\
  (fun p => Z.of_nat (String.length p)) <$>
    returned (Basic.generateStealthScript (Prim Undefined) (world_yielding zero))
    = Some 7622.
Proof. split; vm_compute; reflexivity. Qed.

(** ** Properties of the generators *)

(** C1, counterexample.  With [screenWidth: false] and nothing else set, the
    key is explicitly [false] and the payload still holds the override of
    [screen.width]: the screen block is guarded by the four keys together. *)
Lemma screenWidth_false_keeps_width_override :
  exists p,
    returned (Enhanced.generateStealthScript
                (Object {[ "screenWidth" := Bool false ]}) (world_yielding zero)) = Some p /\
    ({[ "screenWidth" := Bool false ]} : StealthConfig) !! "screenWidth" = Some (Bool false) /\
    includes p patch_screen_width = true.
Proof.
  eexists. split; [apply Enhanced_script_returned; discriminate|].
  split; vm_compute; reflexivity.
Qed.

(** C1, as amended.  For every configuration object, in both variants, a
    recipe of a gated block is in the payload exactly when at least one key
    of the block's guard is not explicitly [false]: one key for every block
    but the screen block, whose six overrides are guarded together by
    [screenWidth], [screenHeight], [pixelRatio] and [colorDepth]. *)
Theorem gated_recipes_follow_their_guard (o : StealthConfig) (w : World) :
  (exists p,
     returned (Enhanced.generateStealthScript (Object o) w) = Some p /\
     forall g keys c,
       In g Enhanced.catalog -> gate g = Some keys -> In c (recipes g) ->
       (includes p c = true <-> exists k, In k keys /\ o !! k <> Some (Bool false))) /\
  (exists p,
     returned (Basic.generateStealthScript (Object o) w) = Some p /\
     forall g keys c,
       In g Basic.catalog -> gate g = Some keys -> In c (recipes g) ->
       (includes p c = true <-> exists k, In k keys /\ o !! k <> Some (Bool false))).
Proof.
  split; eexists.
  - split; [apply Enhanced_script_returned; discriminate|].
    intros g keys c Hg Hgate Hc. cbn [default_parameter].
    exact (gated_recipe_iff o _ g keys c Enhanced_separated Hg Hgate Hc).
  - split; [apply Basic_script_returned; discriminate|].
    intros g keys c Hg Hgate Hc. cbn [default_parameter].
    exact (gated_recipe_iff o _ g keys c Basic_separated Hg Hgate Hc).
Qed.

(** C2, counterexample.  Under two sources that disagree at every draw the
    default configuration yields one and the same payload, and so does every
    argument under any two worlds: no configuration makes two calls differ. *)
Lemma two_calls_never_differ :
  returned (Enhanced.generateStealthScript (Prim Undefined) (world_yielding zero)) =
  returned (Enhanced.generateStealthScript (Prim Undefined) (world_yielding almost_one)) /\
  (forall (arg : value) (w1 w2 : World),
     returned (Enhanced.generateStealthScript arg w1) =
     returned (Enhanced.generateStealthScript arg w2)).
Proof.
  split; [|exact Enhanced_script_world_independent].
  apply Enhanced_script_world_independent.
Qed.

(** C2, as amended.  In both variants the payload is a function of the
    configuration alone: two calls with the same argument return the same
    string whatever the randomization source holds, and a call draws nothing
    from the source.  The [Math.random()] calls are text of the emitted
    recipes, evaluated when the payload runs in a page. *)
Theorem payload_is_deterministic (arg : value) (w1 w2 : World) :
  (returned (Enhanced.generateStealthScript arg w1) =
   returned (Enhanced.generateStealthScript arg w2) /\
   forall w', world_after (Enhanced.generateStealthScript arg w1) = Some w' ->
              random w' = random w1) /\
  (returned (Basic.generateStealthScript arg w1) =
   returned (Basic.generateStealthScript arg w2) /\
   forall w', world_after (Basic.generateStealthScript arg w1) = Some w' ->
              random w' = random w1) /\
  includes patch_canvasNoise "Math.random()" = true.
Proof.
  split; [|split]; [split | split |].
  - apply Enhanced_script_world_independent.
  - intros w'. apply Enhanced_script_keeps_source.
  - apply Basic_script_world_independent.
  - intros w'. apply Basic_script_keeps_source.
  - vm_compute. reflexivity.
Qed.

(** C3, counterexample.  The sequence returned by the smaller variant's
    [generateStealthArgs] holds no flag that begins with [--user-agent=]. *)
Lemma basic_flags_have_no_user_agent :
  exists l,
    returned (Basic.generateStealthArgs (world_yielding zero)) = Some l /\
    forallb (fun flag => negb (startsWith flag "--user-agent=")) l = true.
Proof. eexists. split; [reflexivity | vm_compute; reflexivity]. Qed.

(** C3, as amended.  Every sequence returned by either [generateStealthArgs]
    holds the flag [--disable-blink-features=AutomationControlled].  Every
    sequence returned by the enhanced one also holds [--user-agent=] followed
    by the fixed template with a version of the Chrome pool; the smaller
    variant's sequence holds no user-agent flag. *)
Theorem launch_flags_identity (w : World) :
  source_ok w ->
  (exists l version,
     returned (Enhanced.generateStealthArgs w) = Some l /\
     In "--disable-blink-features=AutomationControlled" l /\
     In version ["131.0.0.0"; "132.0.0.0"; "133.0.0.0"] /\
     In ("--user-agent=Mozilla/5.0 (Windows NT 10.0; Win64; x64) AppleWebKit/537.36 (KHTML, like Gecko) Chrome/"
         +:+ version +:+ " Safari/537.36") l) /\
  (exists l,
     returned (Basic.generateStealthArgs w) = Some l /\
     In "--disable-blink-features=AutomationControlled" l /\
     forall flag, In flag l -> startsWith flag "--user-agent=" = false).
Proof.
  intros Hsrc. split.
  - destruct (index_in_range Enhanced.chrome_versions _ _ _
                (Math_floor (times (random w 0%nat) 3)) eq_refl
                (random_index_range _ (Hsrc 0%nat))) as [version [Hidx Hin]].
    eexists. exists version. rewrite Enhanced_args_run, Hidx. cbn [returned].
    split; [reflexivity|]. split; [now left|]. split; [exact Hin|].
    apply in_or_app. right. now left.
  - eexists. split; [reflexivity|]. split; [now left|].
    intros flag Hin.
    assert (Hall : forallb (fun flag => negb (startsWith flag "--user-agent="))
                     [ "--disable-blink-features=AutomationControlled";
                       "--disable-dev-shm-usage"; "--no-sandbox";
                       "--window-size=1920,1080"; "--start-maximized";
                       "--disable-web-security";
                       "--disable-features=IsolateOrigins,site-per-process";
                       "--disable-benchmarking"; "--disable-extensions";
                       "--disable-background-networking"; "--disable-sync";
                       "--disable-translate"; "--metrics-recording-only";
                       "--mute-audio"; "--safebrowsing-disable-auto-update";
                       "--enable-automation"; "--disable-automation";
                       "--password-store=basic"; "--use-mock-keychain" ] = true)
      by (vm_compute; reflexivity).
    rewrite forallb_forall in Hall. apply negb_true_iff. exact (Hall flag Hin).
Qed.

(** C3, witness: a source that always yields 0. *)
Lemma launch_flags_identity_witness :
  (exists l version,
     returned (Enhanced.generateStealthArgs (world_yielding zero)) = Some l /\
     In "--disable-blink-features=AutomationControlled" l /\
     In version ["131.0.0.0"; "132.0.0.0"; "133.0.0.0"] /\
     In ("--user-agent=Mozilla/5.0 (Windows NT 10.0; Win64; x64) AppleWebKit/537.36 (KHTML, like Gecko) Chrome/"
         +:+ version +:+ " Safari/537.36") l) /\
  (exists l,
     returned (Basic.generateStealthArgs (world_yielding zero)) = Some l /\
     In "--disable-blink-features=AutomationControlled" l /\
     forall flag, In flag l -> startsWith flag "--user-agent=" = false).
Proof.
  apply (launch_flags_identity (world_yielding zero)).
  intros n. unfold in_unit_interval. simpl. lia.
Defined.

(** C4: the code at the failing input.  With both draws 0 the pools select
    [131.0.0.0] and [605.1.15]; the returned string carries the first and
    not the second, its Safari token being the constant [537.36]. *)
Lemma safari_draw_is_dropped :
  index Enhanced.chrome_versions (Math_floor (times zero 3)) = Some "131.0.0.0" /\
  index Enhanced.safari_versions (Math_floor (times zero 3)) = Some "605.1.15" /\
  returned (Enhanced.generateRealisticUserAgent (world_yielding zero)) =
  Some "Mozilla/5.0 (Windows NT 10.0; Win64; x64) AppleWebKit/537.36 (KHTML, like Gecko) Chrome/131.0.0.0 Safari/537.36" /\
  includes "Mozilla/5.0 (Windows NT 10.0; Win64; x64) AppleWebKit/537.36 (KHTML, like Gecko) Chrome/131.0.0.0 Safari/537.36" "605.1.15" = false.
Proof. repeat split; vm_compute; reflexivity. Qed.

(** C5, counterexample.  A custom identity string changes nothing: not on
    the empty configuration, and not on any other. *)
Lemma customUserAgent_changes_nothing :
  returned (Enhanced.generateStealthScript
              (Object {[ "customUserAgent" := Str "Mozilla/5.0 (X11; Linux x86_64)" ]})
              (world_yielding zero)) =
  returned (Enhanced.generateStealthScript (Object ∅) (world_yielding zero)) /\
  (forall (s : string) (o : StealthConfig) (w : World),
     returned (Enhanced.generateStealthScript (Object (<[ "customUserAgent" := Str s ]> o)) w) =
     returned (Enhanced.generateStealthScript (Object (delete "customUserAgent" o)) w)).
Proof.
  split.
  - rewrite <- insert_empty.
    rewrite (Enhanced_script_ignores _ _ _ _ customUserAgent_gates_nothing).
    now rewrite delete_empty.
  - intros s o w. apply Enhanced_script_ignores, customUserAgent_gates_nothing.
Qed.

(** C5, as amended.  [generateStealthScript] never reads [customUserAgent]:
    whatever value the field holds, the payload is the one returned when the
    field is left unset. *)
Theorem customUserAgent_is_ignored (x : prim) (o : StealthConfig) (w : World) :
  returned (Enhanced.generateStealthScript (Object (<[ "customUserAgent" := x ]> o)) w) =
  returned (Enhanced.generateStealthScript (Object (delete "customUserAgent" o)) w).
Proof. apply Enhanced_script_ignores, customUserAgent_gates_nothing. Qed.

(** C6.  With every boolean field set to [false], the payload of either
    variant still holds the WebGL vendor override, the user-activation
    override and the connection override, and does not hold the [chrome]
    object recipe. *)
Theorem unconditional_recipes_survive (o : StealthConfig) (w : World) :
  (forall k, In k Enhanced_boolean_fields -> o !! k = Some (Bool false)) ->
  (exists p,
     returned (Enhanced.generateStealthScript (Object o) w) = Some p /\
     includes p patch_webgl_vendor = true /\
     includes p patch_userActivation = true /\
     includes p patch_connection = true /\
     includes p patch_chrome = false) /\
  (exists p,
     returned (Basic.generateStealthScript (Object o) w) = Some p /\
     includes p patch_webgl_vendor = true /\
     includes p patch_userActivation = true /\
     includes p patch_connection = true /\
     includes p patch_chrome = false).
Proof.
  intros Hoff.
  assert (Hchrome : enabled (Object o) "chromeRuntime" = false).
  { apply enabled_false, Hoff. unfold Enhanced_boolean_fields. cbn [In]. tauto. }
  split; eexists.
  - split; [apply Enhanced_script_returned; discriminate|]. cbn [default_parameter].
    repeat split.
    + apply (recipe_included _ _ {| gate := None; recipes := [patch_webgl_vendor] |});
        [unfold Enhanced.catalog; cbn [In]; tauto | reflexivity | now left].
    + apply (recipe_included _ _ {| gate := None; recipes := [patch_userActivation] |});
        [unfold Enhanced.catalog; cbn [In]; tauto | reflexivity | now left].
    + apply (recipe_included _ _ {| gate := None; recipes := [patch_connection] |});
        [unfold Enhanced.catalog; cbn [In]; tauto | reflexivity | now left].
    + apply (recipe_excluded _ _ Enhanced_separated
               {| gate := Some ["chromeRuntime"]; recipes := [patch_chrome] |});
        [unfold Enhanced.catalog; cbn [In]; tauto | | now left].
      unfold active. cbn [gate existsb]. now rewrite Hchrome.
  - split; [apply Basic_script_returned; discriminate|]. cbn [default_parameter].
    repeat split.
    + apply (recipe_included _ _ {| gate := None; recipes := [patch_webgl_vendor] |});
        [unfold Basic.catalog; cbn [In]; tauto | reflexivity | now left].
    + apply (recipe_included _ _ {| gate := None; recipes := [patch_userActivation] |});
        [unfold Basic.catalog; cbn [In]; tauto | reflexivity | now left].
    + apply (recipe_included _ _ {| gate := None; recipes := [patch_connection] |});
        [unfold Basic.catalog; cbn [In]; tauto | reflexivity | now left].
    + apply (recipe_excluded _ _ Basic_separated
               {| gate := Some ["chromeRuntime"]; recipes := [patch_chrome] |});
        [unfold Basic.catalog; cbn [In]; tauto | | now left].
      unfold active. cbn [gate existsb]. now rewrite Hchrome.
Qed.

(** C6, witness: the configuration [all_false]. *)
Lemma unconditional_recipes_survive_witness :
  (exists p,
     returned (Enhanced.generateStealthScript (Object all_false) (world_yielding zero)) = Some p /\
     includes p patch_webgl_vendor = true /\
     includes p patch_userActivation = true /\
     includes p patch_connection = true /\
     includes p patch_chrome = false) /\
  (exists p,
     returned (Basic.generateStealthScript (Object all_false) (world_yielding zero)) = Some p /\
     includes p patch_webgl_vendor = true /\
     includes p patch_userActivation = true /\
     includes p patch_connection = true /\
     includes p patch_chrome = false).
Proof.
  apply (unconditional_recipes_survive all_false (world_yielding zero)).
  intros k Hk. unfold Enhanced_boolean_fields in Hk. cbn [In] in Hk.
  repeat (destruct Hk as [<- | Hk]; [vm_compute; reflexivity|]).
  contradiction.
Defined.

(** C7.  Two sequences returned by the enhanced [generateStealthArgs] have
    the same length, 41, and the same entry at every position but the last,
    which in both is [--user-agent=] followed by the generated identity
    string; the smaller variant returns one fixed sequence. *)
Theorem launch_flags_static_but_one (w1 w2 : World) :
  (exists l1 l2,
     returned (Enhanced.generateStealthArgs w1) = Some l1 /\
     returned (Enhanced.generateStealthArgs w2) = Some l2 /\
     length l1 = 41%nat /\ length l2 = 41%nat /\
     (forall i : nat, i <> 40%nat -> l1 !! i = l2 !! i) /\
     (exists ua1 ua2,
        returned (Enhanced.generateRealisticUserAgent w1) = Some ua1 /\
        returned (Enhanced.generateRealisticUserAgent w2) = Some ua2 /\
        l1 !! 40%nat = Some ("--user-agent=" +:+ ua1) /\
        l2 !! 40%nat = Some ("--user-agent=" +:+ ua2))) /\
  (exists l,
     returned (Basic.generateStealthArgs w1) = Some l /\
     returned (Basic.generateStealthArgs w2) = Some l).
Proof.
  split.
  - do 2 eexists. rewrite !Enhanced_args_run, !Enhanced_user_agent_run. cbn [returned].
    split; [reflexivity|]. split; [reflexivity|].
    split; [reflexivity|]. split; [reflexivity|]. split.
    + intros i Hi.
      destruct (Nat.lt_ge_cases i 40) as [Hlt | Hge].
      * rewrite !lookup_app_l by exact Hlt. reflexivity.
      * rewrite !lookup_ge_None_2; [reflexivity | |];
          rewrite length_app; change (length Enhanced_static_flags) with 40%nat;
          cbn [length]; lia.
    + do 2 eexists. split; [reflexivity|]. split; [reflexivity|]. split; reflexivity.
  - eexists. split; reflexivity.
Qed.

(** C8.  A call of [generateStealthScript] leaves the configuration object
    as it was: the caller's object when one is passed, the default object
    when the argument is missing.  Both variants. *)
Theorem config_is_not_mutated (o : StealthConfig) (w : World) :
  (exists p w',
     Enhanced.generateStealthScript (Object o) w = Normal (p, w') /\
     config w' = Object o) /\
  (exists p w',
     Enhanced.generateStealthScript (Prim Undefined) w = Normal (p, w') /\
     config w' = Object Enhanced.defaultStealthConfig) /\
  (exists p w',
     Basic.generateStealthScript (Object o) w = Normal (p, w') /\
     config w' = Object o) /\
  (exists p w',
     Basic.generateStealthScript (Prim Undefined) w = Normal (p, w') /\
     config w' = Object Basic.defaultStealthConfig).
Proof.
  split; [|split; [|split]]; do 2 eexists.
  - split; [apply Enhanced_script_run; discriminate | reflexivity].
  - split; [apply Enhanced_script_run; discriminate | reflexivity].
  - split; [apply Basic_script_run; discriminate | reflexivity].
  - split; [apply Basic_script_run; discriminate | reflexivity].
Qed.

(** C9, counterexample.  Handed [null], [generateStealthScript] does not
    return: the first property read, [config.webdriver], throws a
    [TypeError] (the default parameter replaces [undefined] only).  Both
    variants. *)
Lemma null_argument_throws :
  Enhanced.generateStealthScript (Prim Null) (world_yielding zero) = Throw TypeError /\
  Basic.generateStealthScript (Prim Null) (world_yielding zero) = Throw TypeError /\
  returned (Enhanced.generateStealthScript (Prim Null) (world_yielding zero)) = None.
Proof. split; [|split]; reflexivity. Qed.

(** C9, as amended.  Both entry points return on every input but one:
    [generateStealthScript] returns a string for a missing argument and for
    every argument other than [null], whatever its fields hold, and
    [generateStealthArgs] returns its sequence in every world.  On [null]
    the call throws. *)
Theorem generators_are_total (arg : value) (w : World) :
  arg <> Prim Null ->
  (exists p w', Enhanced.generateStealthScript arg w = Normal (p, w')) /\
  (exists l w', Enhanced.generateStealthArgs w = Normal (l, w')) /\
  (exists p w', Basic.generateStealthScript arg w = Normal (p, w')) /\
  (exists l w', Basic.generateStealthArgs w = Normal (l, w')).
Proof.
  intros Harg. split; [|split; [|split]]; do 2 eexists.
  - now apply Enhanced_script_run.
  - apply Enhanced_args_run.
  - now apply Basic_script_run.
  - reflexivity.
Qed.

(** C9, witness: a configuration with nonsensical field values. *)
Lemma generators_are_total_witness :
  let nonsense : StealthConfig :=
    {[ "navigatorHardwareConcurrency" := Number (-1);
       "webdriver" := Str "no";
       "plugins" := Null ]} in
  (exists p w', Enhanced.generateStealthScript (Object nonsense) (world_yielding zero) = Normal (p, w')) /\
  (exists l w', Enhanced.generateStealthArgs (world_yielding zero) = Normal (l, w')) /\
  (exists p w', Basic.generateStealthScript (Object nonsense) (world_yielding zero) = Normal (p, w')) /\
  (exists l w', Basic.generateStealthArgs (world_yielding zero) = Normal (l, w')).
Proof.
  intros nonsense.
  apply (generators_are_total (Object nonsense) (world_yielding zero)).
  discriminate.
Defined.

(** C10.  Every sequence returned by [generateStealthArgs], in either
    variant, holds both [--enable-automation] and [--disable-automation]. *)
Theorem both_automation_flags (w : World) :
  (exists l,
     returned (Enhanced.generateStealthArgs w) = Some l /\
     In "--enable-automation" l /\ In "--disable-automation" l) /\
  (exists l,
     returned (Basic.generateStealthArgs w) = Some l /\
     In "--enable-automation" l /\ In "--disable-automation" l).
Proof.
  split; eexists.
  - rewrite Enhanced_args_run. cbn [returned]. split; [reflexivity|].
    split; apply in_or_app; left; unfold Enhanced_static_flags; cbn [In]; tauto.
  - split; [reflexivity|]. split; cbn [In]; tauto.
Qed.

(** ** Further properties of the payload *)

(** The recipes a catalogue can push at all, in order. *)
Definition all_recipes (catalog : list group) : list string := flat_map recipes catalog.

(** The key [k] is explicitly [false] in the object [o]. *)
Definition disabled (o : StealthConfig) (k : string) : Prop := o !! k = Some (Bool false).

(** The groups only the enhanced generator has: its catalogue is the smaller
    variant's catalogue followed by these. *)
Definition Enhanced_only : list group := drop 16 Enhanced.catalog.

(** How often [m] occurs in [s], counting every position it occurs at. *)
Fixpoint occurrences (s m : string) : nat :=
match s with
| EmptyString => if String.prefix m EmptyString then 1 else 0
| String _ rest => (if String.prefix m s then 1 else 0) + occurrences rest m
end.

(** How often [m] occurs in the recipes of the group [g], taken together. *)
Definition weight (m : string) (g : group) : nat :=
sum_list_with (fun c => occurrences c m) (recipes g).

Section Selection.

Variable catalog : list group.

(** What is pushed is pushed in catalogue order. *)
Lemma select_sublist (v : value) : select v catalog `sublist_of` all_recipes catalog.
Proof.
  unfold select, all_recipes. induction catalog as [|g cat IH]; [constructor|].
  cbn [flat_map]. apply sublist_app; [|exact IH].
  destruct (active v g); [reflexivity | apply sublist_nil_l].
Qed.

Lemma active_mono (v1 v2 : value) (g : group) :
  (forall k, In k (default [] (gate g)) -> enabled v2 k = true -> enabled v1 k = true) ->
  active v2 g = true -> active v1 g = true.
Proof.
  unfold active. destruct (gate g) as [keys|]; [|reflexivity]. cbn [default].
  intros H. rewrite !existsb_exists. intros [k [Hk He]]. exists k. auto.
Qed.

(** Turning keys off only removes recipes. *)
Lemma select_mono (v1 v2 : value) :
  (forall k, In k (gate_keys catalog) -> enabled v2 k = true -> enabled v1 k = true) ->
  select v2 catalog `sublist_of` select v1 catalog.
Proof.
  unfold select, gate_keys. induction catalog as [|g cat IH]; intros H; [constructor|].
  cbn [flat_map] in *. apply sublist_app.
  - destruct (active v2 g) eqn:H2; [|apply sublist_nil_l].
    rewrite (active_mono v1 v2 g); [reflexivity | | exact H2].
    intros k Hk. apply H, in_or_app. now left.
  - apply IH. intros k Hk. apply H, in_or_app. now right.
Qed.

(** The selection depends on the configuration only through which gating
    keys are not [false]. *)
Lemma select_ext_enabled (v1 v2 : value) :
  (forall k, In k (gate_keys catalog) -> enabled v1 k = enabled v2 k) ->
  select v1 catalog = select v2 catalog.
Proof.
  unfold select, gate_keys. induction catalog as [|g cat IH]; intros H; [reflexivity|].
  cbn [flat_map] in *. rewrite IH by (intros k Hk; apply H, in_or_app; now right).
  f_equal. assert (active v1 g = active v2 g) as ->; [|reflexivity].
  assert (Hg : forall k, In k (default [] (gate g)) -> enabled v1 k = enabled v2 k)
    by (intros k Hk; apply H, in_or_app; now left).
  destruct (active v2 g) eqn:H2.
  - apply (active_mono v1 v2 g); [|exact H2]. intros k Hk. now rewrite Hg.
  - destruct (active v1 g) eqn:H1; [|reflexivity].
    rewrite <- H2. symmetry. apply (active_mono v2 v1 g); [|exact H1].
    intros k Hk. now rewrite <- Hg.
Qed.

Lemma in_select_all (v : value) (c : string) :
  In c (select v catalog) -> In c (all_recipes catalog).
Proof.
  intros H. apply in_select in H as [g [Hg [_ Hc]]].
  unfold all_recipes. apply in_flat_map. eauto.
Qed.

End Selection.

Lemma select_app (v : value) (cat1 cat2 : list group) :
  select v (cat1 ++ cat2) = (select v cat1 ++ select v cat2)%list.
Proof. unfold select. apply flat_map_app. Qed.

Lemma Enhanced_catalog_split : Enhanced.catalog = (Basic.catalog ++ Enhanced_only)%list.
Proof. reflexivity. Qed.

Lemma Enhanced_all_recipes : all_recipes Enhanced.catalog = Patches.all.
Proof. reflexivity. Qed.

Lemma Basic_all_recipes : all_recipes Basic.catalog = take 26 Patches.all.
Proof. reflexivity. Qed.

Lemma Basic_gate_keys (k : string) :
  In k (gate_keys Basic.catalog) -> In k (gate_keys Enhanced.catalog).
Proof.
  intros H. rewrite Enhanced_catalog_split. unfold gate_keys in *.
  rewrite flat_map_app. apply in_or_app. now left.
Qed.

(** *** Joining with line feeds *)

Lemma join_app (sep : string) (a b : list string) :
  a <> [] -> b <> [] ->
  join sep (a ++ b) = join sep a +:+ sep +:+ join sep b.
Proof.
  unfold join. intros Ha Hb. induction a as [|x a IH]; [contradiction|].
  destruct a as [|y a].
  - destruct b as [|z b]; [contradiction | reflexivity].
  - change (String.concat sep ((x :: y :: a) ++ b))
      with (x +:+ sep +:+ String.concat sep ((y :: a) ++ b)).
    rewrite IH by discriminate.
    change (String.concat sep (x :: y :: a)) with (x +:+ sep +:+ String.concat sep (y :: a)).
    now rewrite !append_assoc.
Qed.

Lemma prefix_append (m a t : string) :
  String.prefix m a = true -> String.prefix m (a +:+ t) = true.
Proof.
  rewrite !prefix_spec. intros [rest ->]. exists (rest +:+ t). apply append_assoc.
Qed.

Lemma occurrences_nil (m : string) :
  occurrences "" m = if String.prefix m "" then 1%nat else 0%nat.
Proof. reflexivity. Qed.

Lemma occurrences_cons (x : ascii) (s m : string) :
  occurrences (String x s) m =
  ((if String.prefix m (String x s) then 1 else 0) + occurrences s m)%nat.
Proof. reflexivity. Qed.

(** Occurrences of a non-empty single-line text add up across a line feed. *)
Lemma occurrences_across_LF (m a b : string) :
  single_line m = true -> m <> "" ->
  occurrences (a +:+ String LF b) m = (occurrences a m + occurrences b m)%nat.
Proof.
  intros Hm Hne. destruct m as [|c m]; [contradiction|].
  assert (Hc : c <> LF).
  { intros ->. cbn [single_line] in Hm. rewrite Ascii.eqb_refl in Hm. discriminate Hm. }
  induction a as [|y a IH].
  - rewrite append_nil, occurrences_cons, occurrences_nil.
    destruct (String.prefix (String c m) (String LF b)) eqn:Hp.
    + apply prefix_cons in Hp as [-> _]. contradiction.
    + reflexivity.
  - rewrite append_cons, !occurrences_cons, IH, <- append_cons.
    destruct (String.prefix (String c m) (String y a +:+ String LF b)) eqn:Hp.
    + apply prefix_before_LF in Hp; [|exact Hm]. rewrite Hp. lia.
    + destruct (String.prefix (String c m) (String y a)) eqn:Hq; [|lia].
      apply (prefix_append _ _ (String LF b)) in Hq. congruence.
Qed.

Lemma occurrences_join_newline (m : string) (arr : list string) :
  single_line m = true -> m <> "" ->
  occurrences (join newline arr) m = sum_list_with (fun c => occurrences c m) arr.
Proof.
  intros Hm Hne. unfold join. induction arr as [|a arr IH].
  - cbn [String.concat sum_list_with]. rewrite occurrences_nil.
    destruct m; [contradiction | reflexivity].
  - destruct arr as [|b arr].
    + cbn [String.concat sum_list_with]. lia.
    + change (String.concat newline (a :: b :: arr))
        with (a +:+ String LF (String.concat newline (b :: arr))).
      rewrite occurrences_across_LF, IH by assumption. reflexivity.
Qed.

Lemma enabled_iff_disabled (o1 o2 : StealthConfig) (k : string) :
  (disabled o1 k <-> disabled o2 k) -> enabled (Object o1) k = enabled (Object o2) k.
Proof.
  unfold disabled. rewrite <- !enabled_false.
  destruct (enabled (Object o1) k), (enabled (Object o2) k); intros [H1 H2]; auto.
  - symmetry. auto.
Qed.

Lemma Basic_script_ignores (k : string) (x : prim) (o : StealthConfig) (w : World) :
  ~ In k (gate_keys Basic.catalog) ->
  returned (Basic.generateStealthScript (Object (<[k := x]> o)) w) =
  returned (Basic.generateStealthScript (Object (delete k o)) w).
Proof.
  intros Hk. rewrite !Basic_script_returned by discriminate.
  cbn [default_parameter]. unfold payload. f_equal. f_equal.
  apply select_ext. intros k' Hk'. cbn [field].
  assert (k <> k') by congruence.
  now rewrite lookup_insert_ne, lookup_delete_ne.
Qed.

Lemma navigatorLanguages_gates_nothing :
  ~ In "navigatorLanguages" (gate_keys Enhanced.catalog).
Proof.
  intros H.
  assert (Hb : forallb (fun k => negb (String.eqb k "navigatorLanguages"))
                 (gate_keys Enhanced.catalog) = true) by (vm_compute; reflexivity).
  rewrite forallb_forall in Hb. specialize (Hb _ H).
  rewrite String.eqb_refl in Hb. discriminate Hb.
Qed.

(** X1.  Only an explicit [false] counts: two configuration objects that
    hold [false] under the same gating keys yield the same payload, in both
    variants, whatever else they hold. *)
Theorem payload_depends_on_false_keys (o1 o2 : StealthConfig) (w1 w2 : World) :
  (forall k, In k (gate_keys Enhanced.catalog) -> (disabled o1 k <-> disabled o2 k)) ->
  returned (Enhanced.generateStealthScript (Object o1) w1) =
  returned (Enhanced.generateStealthScript (Object o2) w2) /\
  returned (Basic.generateStealthScript (Object o1) w1) =
  returned (Basic.generateStealthScript (Object o2) w2).
Proof.
  intros H. rewrite !Enhanced_script_returned, !Basic_script_returned by discriminate.
  cbn [default_parameter]. unfold payload. split; f_equal; f_equal; apply select_ext_enabled.
  - intros k Hk. apply enabled_iff_disabled, H, Hk.
  - intros k Hk. apply enabled_iff_disabled, H, Basic_gate_keys, Hk.
Qed.

(** X1, witness: the default object and the object that only sets
    [doNotTrack: false]. *)
Lemma payload_depends_on_false_keys_witness :
  returned (Enhanced.generateStealthScript (Object Enhanced.defaultStealthConfig)
              (world_yielding zero)) =
  returned (Enhanced.generateStealthScript (Object {[ "doNotTrack" := Bool false ]})
              (world_yielding almost_one)) /\
  returned (Basic.generateStealthScript (Object Enhanced.defaultStealthConfig)
              (world_yielding zero)) =
  returned (Basic.generateStealthScript (Object {[ "doNotTrack" := Bool false ]})
              (world_yielding almost_one)).
Proof.
  apply (payload_depends_on_false_keys Enhanced.defaultStealthConfig
           {[ "doNotTrack" := Bool false ]} (world_yielding zero) (world_yielding almost_one)).
  intros k Hk. unfold disabled.
  unfold gate_keys, Enhanced.catalog in Hk. cbn [flat_map gate default app In] in Hk.
  repeat (destruct Hk as [<- | Hk];
          [split; intros H; vm_compute in H |- *; first [reflexivity | discriminate H]|]).
  contradiction.
Defined.

(** X2.  The key [navigatorLanguages] has no effect: whatever it holds,
    [false] included, the payload of either variant is the one returned when
    the key is left out.  (The [languages] overrides belong to the
    [navigator] block.) *)
Theorem navigatorLanguages_is_ignored (x : prim) (o : StealthConfig) (w : World) :
  returned (Enhanced.generateStealthScript (Object (<[ "navigatorLanguages" := x ]> o)) w) =
  returned (Enhanced.generateStealthScript (Object (delete "navigatorLanguages" o)) w) /\
  returned (Basic.generateStealthScript (Object (<[ "navigatorLanguages" := x ]> o)) w) =
  returned (Basic.generateStealthScript (Object (delete "navigatorLanguages" o)) w).
Proof.
  split.
  - apply Enhanced_script_ignores, navigatorLanguages_gates_nothing.
  - apply Basic_script_ignores. intros H.
    exact (navigatorLanguages_gates_nothing (Basic_gate_keys _ H)).
Qed.

Lemma unconditional_included (v : value) (catalog : list group) (c : string) :
  In {| gate := None; recipes := [c] |} catalog ->
  includes (payload v catalog) c = true.
Proof.
  intros H. apply (recipe_included v catalog {| gate := None; recipes := [c] |});
    [exact H | reflexivity | now left].
Qed.

(** X3.  No configuration removes the unconditional recipes: for every
    configuration object the payload holds the WebGL vendor, user-activation
    and connection overrides, and in the enhanced generator also the
    speech-synthesis, gamepad, battery and clipboard stand-ins. *)
Theorem unconditional_recipes_always (o : StealthConfig) (w : World) :
  (exists p,
     returned (Enhanced.generateStealthScript (Object o) w) = Some p /\
     Forall (fun c => includes p c = true)
       [ patch_webgl_vendor; patch_userActivation; patch_connection;
         patch_speechSynthesis; patch_getGamepads; patch_getBattery; patch_clipboard ]) /\
  (exists p,
     returned (Basic.generateStealthScript (Object o) w) = Some p /\
     Forall (fun c => includes p c = true)
       [ patch_webgl_vendor; patch_userActivation; patch_connection ]).
Proof.
  split; eexists.
  - split; [apply Enhanced_script_returned; discriminate|]. cbn [default_parameter].
    repeat (apply Forall_cons; split;
            [apply unconditional_included; unfold Enhanced.catalog; cbn [In]; tauto|]).
    apply Forall_nil. exact I.
  - split; [apply Basic_script_returned; discriminate|]. cbn [default_parameter].
    repeat (apply Forall_cons; split;
            [apply unconditional_included; unfold Basic.catalog; cbn [In]; tauto|]).
    apply Forall_nil. exact I.
Qed.

Lemma select_empty_object (catalog : list group) :
  forallb (fun g => negb (bool_decide (gate g = Some []))) catalog = true ->
  select (Object ∅) catalog = all_recipes catalog.
Proof.
  unfold select, all_recipes. induction catalog as [|g cat IH]; [reflexivity|].
  cbn [forallb flat_map]. intros H. apply andb_true_iff in H as [Hg H].
  rewrite (IH H). f_equal. assert (active (Object ∅) g = true) as ->; [|reflexivity].
  unfold active. destruct (gate g) as [[|k keys]|]; [discriminate Hg | | reflexivity].
  cbn [existsb]. unfold enabled at 1. cbn [field]. now rewrite lookup_empty.
Qed.

(** X4.  Missing keys enable: when no gating key is explicitly [false] (the
    empty object, for one) the payload is all thirty-four recipes in source
    order, joined by line feeds; in the smaller variant, all twenty-six. *)
Theorem nothing_false_gives_everything (o : StealthConfig) (w : World) :
  (forall k, In k (gate_keys Enhanced.catalog) -> ~ disabled o k) ->
  returned (Enhanced.generateStealthScript (Object o) w) = Some (join newline Patches.all) /\
  returned (Basic.generateStealthScript (Object o) w) = Some (join newline (take 26 Patches.all)).
Proof.
  intros H.
  assert (He : forall k, In k (gate_keys Enhanced.catalog) ->
                         enabled (Object o) k = enabled (Object ∅) k).
  { intros k Hk. apply enabled_iff_disabled. unfold disabled. rewrite lookup_empty.
    split; [intros Hd; destruct (H k Hk Hd) | discriminate]. }
  rewrite Enhanced_script_returned, Basic_script_returned by discriminate.
  cbn [default_parameter]. unfold payload.
  rewrite (select_ext_enabled Enhanced.catalog (Object o) (Object ∅) He).
  rewrite (select_ext_enabled Basic.catalog (Object o) (Object ∅))
    by (intros k Hk; apply He, Basic_gate_keys, Hk).
  rewrite !select_empty_object by reflexivity.
  now rewrite Enhanced_all_recipes, Basic_all_recipes.
Qed.

(** X4, witness: the empty object. *)
Lemma nothing_false_gives_everything_witness :
  returned (Enhanced.generateStealthScript (Object ∅) (world_yielding zero))
    = Some (join newline Patches.all) /\
  returned (Basic.generateStealthScript (Object ∅) (world_yielding zero))
    = Some (join newline (take 26 Patches.all)).
Proof.
  apply (nothing_false_gives_everything ∅ (world_yielding zero)).
  intros k _. unfold disabled. rewrite lookup_empty. discriminate.
Defined.

(** X5.  The order of the recipes is fixed: for every configuration object
    the array joined into the payload is a sub-sequence of the recipes in
    source order (a configuration can drop recipes, never reorder or repeat
    them). *)
Theorem pushed_in_source_order (o : StealthConfig) (w : World) :
  (exists p w',
     Enhanced.generateStealthScript (Object o) w = Normal (p, w') /\
     p = join newline (scripts w') /\
     scripts w' `sublist_of` Patches.all) /\
  (exists p w',
     Basic.generateStealthScript (Object o) w = Normal (p, w') /\
     p = join newline (scripts w') /\
     scripts w' `sublist_of` take 26 Patches.all).
Proof.
  split; do 2 eexists.
  - split; [apply Enhanced_script_run; discriminate|]. cbn [scripts default_parameter].
    split; [reflexivity|]. rewrite <- Enhanced_all_recipes. apply select_sublist.
  - split; [apply Basic_script_run; discriminate|]. cbn [scripts default_parameter].
    split; [reflexivity|]. rewrite <- Basic_all_recipes. apply select_sublist.
Qed.

(** X6.  Turning keys off only removes recipes: if every gating key that is
    [false] in [o1] is [false] in [o2], the recipes pushed for [o2] are a
    sub-sequence of those pushed for [o1]. *)
Theorem disabling_only_removes (o1 o2 : StealthConfig) (w : World) :
  (forall k, In k (gate_keys Enhanced.catalog) -> disabled o1 k -> disabled o2 k) ->
  (exists p1 p2 w1 w2,
     Enhanced.generateStealthScript (Object o1) w = Normal (p1, w1) /\
     Enhanced.generateStealthScript (Object o2) w = Normal (p2, w2) /\
     scripts w2 `sublist_of` scripts w1) /\
  (exists p1 p2 w1 w2,
     Basic.generateStealthScript (Object o1) w = Normal (p1, w1) /\
     Basic.generateStealthScript (Object o2) w = Normal (p2, w2) /\
     scripts w2 `sublist_of` scripts w1).
Proof.
  intros H.
  assert (Hm : forall k, In k (gate_keys Enhanced.catalog) ->
                 enabled (Object o2) k = true -> enabled (Object o1) k = true).
  { intros k Hk. rewrite !enabled_true. intros H2 H1. apply H2, H, H1. exact Hk. }
  split; do 4 eexists.
  - split; [apply Enhanced_script_run; discriminate|].
    split; [apply Enhanced_script_run; discriminate|].
    cbn [scripts default_parameter]. apply select_mono. exact Hm.
  - split; [apply Basic_script_run; discriminate|].
    split; [apply Basic_script_run; discriminate|].
    cbn [scripts default_parameter]. apply select_mono.
    intros k Hk. apply Hm, Basic_gate_keys, Hk.
Qed.

(** X6, witness: from the empty object to [touchSupport: false]. *)
Lemma disabling_only_removes_witness :
  (exists p1 p2 w1 w2,
     Enhanced.generateStealthScript (Object ∅) (world_yielding zero) = Normal (p1, w1) /\
     Enhanced.generateStealthScript (Object {[ "touchSupport" := Bool false ]})
       (world_yielding zero) = Normal (p2, w2) /\
     scripts w2 `sublist_of` scripts w1) /\
  (exists p1 p2 w1 w2,
     Basic.generateStealthScript (Object ∅) (world_yielding zero) = Normal (p1, w1) /\
     Basic.generateStealthScript (Object {[ "touchSupport" := Bool false ]})
       (world_yielding zero) = Normal (p2, w2) /\
     scripts w2 `sublist_of` scripts w1).
Proof.
  apply (disabling_only_removes ∅ {[ "touchSupport" := Bool false ]} (world_yielding zero)).
  intros k _. unfold disabled. rewrite lookup_empty. discriminate.
Defined.

Lemma select_Basic_nonempty (v : value) : select v Basic.catalog <> [].
Proof.
  intros H.
  assert (Hin : In patch_webgl_vendor (select v Basic.catalog)).
  { apply in_select. exists {| gate := None; recipes := [patch_webgl_vendor] |}.
    split; [unfold Basic.catalog; cbn [In]; tauto|]. split; [reflexivity | now left]. }
  rewrite H in Hin. contradiction.
Qed.

Lemma select_Enhanced_only_nonempty (v : value) : select v Enhanced_only <> [].
Proof.
  intros H.
  assert (Hin : In patch_clipboard (select v Enhanced_only)).
  { apply in_select. exists {| gate := None; recipes := [patch_clipboard] |}.
    split; [unfold Enhanced_only, Enhanced.catalog; cbn [drop In]; tauto|].
    split; [reflexivity | now left]. }
  rewrite H in Hin. contradiction.
Qed.

(** X7.  For one and the same configuration object the enhanced payload is
    the smaller variant's payload, a line feed, and more text: the enhanced
    generator only appends to what the smaller one emits. *)
Theorem enhanced_extends_basic (o : StealthConfig) (w : World) :
  exists basic rest,
    returned (Basic.generateStealthScript (Object o) w) = Some basic /\
    returned (Enhanced.generateStealthScript (Object o) w) =
      Some (basic +:+ newline +:+ rest) /\
    startsWith (basic +:+ newline +:+ rest) basic = true.
Proof.
  do 2 eexists. split; [apply Basic_script_returned; discriminate|]. split.
  - rewrite Enhanced_script_returned by discriminate. cbn [default_parameter].
    unfold payload. rewrite Enhanced_catalog_split, select_app.
    rewrite join_app; [reflexivity | apply select_Basic_nonempty
                      | apply select_Enhanced_only_nonempty].
  - apply prefix_spec. eexists. reflexivity.
Qed.

(** X12.  The call throws on exactly one argument: [generateStealthScript]
    ends in a [TypeError] when it is handed [null], and returns a payload
    for a missing argument and for every other value. *)
Theorem throws_only_on_null (arg : value) (w : World) :
  (Enhanced.generateStealthScript arg w = Throw TypeError <-> arg = Prim Null) /\
  (Basic.generateStealthScript arg w = Throw TypeError <-> arg = Prim Null).
Proof.
  split; (split; [|intros ->; reflexivity]).
  - destruct arg as [[| | | |]|]; try reflexivity;
      rewrite Enhanced_script_run by discriminate; discriminate.
  - destruct arg as [[| | | |]|]; try reflexivity;
      rewrite Basic_script_run by discriminate; discriminate.
Qed.

(** *** Counting text in a payload *)

Lemma occurrences_payload (v : value) (catalog : list group) (m : string) :
  single_line m = true -> m <> "" ->
  occurrences (payload v catalog) m =
  sum_list_with (fun g => if active v g then weight m g else 0%nat) catalog.
Proof.
  intros Hm Hne. unfold payload. rewrite occurrences_join_newline by assumption.
  unfold select. induction catalog as [|g cat IH]; [reflexivity|].
  cbn [flat_map sum_list_with]. rewrite sum_list_with_app, IH.
  destruct (active v g); reflexivity.
Qed.

(** Two texts that occur equally often in every recipe occur equally often
    in every payload. *)
Lemma occurrences_balanced (v : value) (catalog : list group) (m1 m2 : string) :
  single_line m1 = true -> m1 <> "" -> single_line m2 = true -> m2 <> "" ->
  forallb (fun c => Nat.eqb (occurrences c m1) (occurrences c m2)) (all_recipes catalog) = true ->
  occurrences (payload v catalog) m1 = occurrences (payload v catalog) m2.
Proof.
  intros H1 N1 H2 N2 Hall. unfold payload.
  rewrite !occurrences_join_newline by assumption.
  rewrite forallb_forall in Hall.
  assert (Hsel : forall c, In c (select v catalog) -> occurrences c m1 = occurrences c m2)
    by (intros c Hc; apply Nat.eqb_eq, Hall, (in_select_all catalog v), Hc).
  induction (select v catalog) as [|c l IH]; [reflexivity|].
  cbn [sum_list_with]. rewrite (Hsel c) by now left.
  rewrite IH by (intros c' Hc'; apply Hsel; now right). reflexivity.
Qed.

Lemma if_same (b : bool) (n : nat) : (if b then n else n) = n.
Proof. now destruct b. Qed.

(** Evaluates the weights of the groups in the goal. *)
Ltac count_recipes :=
  repeat match goal with
  | |- context [weight ?m ?g] =>
      let n := eval vm_compute in (weight m g) in
      replace (weight m g) with n by (vm_compute; reflexivity)
  end.

(** X8.  The enhanced payload declares [const getParameter] twice whenever
    [webglNoise] is not [false] (once in the unconditional WebGL vendor
    recipe, once in the WebGL noise recipe, both at the top level of the one
    joined script) and once otherwise; the smaller variant declares it
    once. *)
Theorem getParameter_declared_twice (o : StealthConfig) (w : World) :
  (exists p,
     returned (Enhanced.generateStealthScript (Object o) w) = Some p /\
     (o !! "webglNoise" <> Some (Bool false) ->
        occurrences p "const getParameter =" = 2%nat) /\
     (o !! "webglNoise" = Some (Bool false) ->
        occurrences p "const getParameter =" = 1%nat)) /\
  (exists p,
     returned (Basic.generateStealthScript (Object o) w) = Some p /\
     occurrences p "const getParameter =" = 1%nat).
Proof.
  split; eexists.
  - split; [apply Enhanced_script_returned; discriminate|]. cbn [default_parameter].
    rewrite occurrences_payload by (vm_compute; first [reflexivity | discriminate]).
    unfold Enhanced.catalog. cbn [sum_list_with]. count_recipes.
    rewrite !if_same. unfold active. cbn [gate existsb].
    rewrite <- enabled_true, <- enabled_false.
    destruct (enabled (Object o) "webglNoise"); split; intros H;
      first [reflexivity | discriminate H | now destruct H].
  - split; [apply Basic_script_returned; discriminate|]. cbn [default_parameter].
    rewrite occurrences_payload by (vm_compute; first [reflexivity | discriminate]).
    unfold Basic.catalog. cbn [sum_list_with]. count_recipes.
    rewrite !if_same. unfold active. cbn [gate]. reflexivity.
Qed.

(** X9.  Every override is declared re-configurable: in every payload of
    either variant the text [configurable: true] occurs exactly as often as
    [Object.defineProperty(]. *)
Theorem every_override_configurable (o : StealthConfig) (w : World) :
  (exists p,
     returned (Enhanced.generateStealthScript (Object o) w) = Some p /\
     occurrences p "configurable: true" = occurrences p "Object.defineProperty(") /\
  (exists p,
     returned (Basic.generateStealthScript (Object o) w) = Some p /\
     occurrences p "configurable: true" = occurrences p "Object.defineProperty(").
Proof.
  split; eexists.
  - split; [apply Enhanced_script_returned; discriminate|]. cbn [default_parameter].
    apply occurrences_balanced; vm_compute; first [reflexivity | discriminate].
  - split; [apply Basic_script_returned; discriminate|]. cbn [default_parameter].
    apply occurrences_balanced; vm_compute; first [reflexivity | discriminate].
Qed.

(** The groups whose recipes call [Math.random()]: the four noise blocks. *)
Definition noise_keys : list string :=
[ "canvasNoise"; "webglNoise"; "audioContextNoise"; "behaviorRandomization" ].

(** Every group of the catalogue either mentions [m] in none of its recipes
    or is gated by exactly one of [keys] and mentions [m] in a recipe. *)
Definition mentioned_only_under (m : string) (keys : list string) (catalog : list group) : bool :=
forallb (fun g => forallb (fun c => negb (includes c m)) (recipes g) ||
                  match gate g with
                  | Some [k] => bool_decide (k ∈ keys) && existsb (fun c => includes c m) (recipes g)
                  | _ => false
                  end) catalog &&
forallb (fun k => existsb (fun g => bool_decide (gate g = Some [k]) &&
                                    existsb (fun c => includes c m) (recipes g)) catalog) keys.

Lemma mentioned_iff (o : StealthConfig) (catalog : list group) (m : string) (keys : list string) :
  single_line m = true -> m <> "" ->
  mentioned_only_under m keys catalog = true ->
  includes (payload (Object o) catalog) m = true <->
  exists k, In k keys /\ o !! k <> Some (Bool false).
Proof.
  intros Hm Hne Hall. unfold mentioned_only_under in Hall.
  apply andb_true_iff in Hall as [Hgroups Hkeys].
  rewrite forallb_forall in Hgroups. rewrite forallb_forall in Hkeys. split.
  - intros H. apply includes_join_newline in H as [c [Hc Hi]]; [|exact Hm|exact Hne].
    apply in_select in Hc as [g [Hg [Ha Hr]]].
    specialize (Hgroups g Hg). apply orb_true_iff in Hgroups as [Hnone | Hgate].
    + rewrite forallb_forall in Hnone. specialize (Hnone c Hr).
      apply negb_true_iff in Hnone. congruence.
    + destruct (gate g) as [[|k [|k' keys']]|] eqn:Hgk; try discriminate Hgate.
      apply andb_true_iff in Hgate as [Hk _]. apply bool_decide_eq_true in Hk.
      exists k. split; [now apply list_elem_of_In|].
      apply enabled_true. unfold active in Ha. rewrite Hgk in Ha. cbn [existsb] in Ha.
      now rewrite orb_false_r in Ha.
  - intros [k [Hk He]]. specialize (Hkeys k Hk).
    apply existsb_exists in Hkeys as [g [Hg Hgk]].
    apply andb_true_iff in Hgk as [Hgate Hrec]. apply bool_decide_eq_true in Hgate.
    apply existsb_exists in Hrec as [c [Hc Hi]].
    apply (includes_trans _ c); [|exact Hi].
    apply (recipe_included _ _ g); [exact Hg | | exact Hc].
    unfold active. rewrite Hgate. cbn [existsb]. apply enabled_true in He. now rewrite He.
Qed.

(** X13.  The enhanced payload holds a call of [Math.random()] exactly when
    one of [canvasNoise], [webglNoise], [audioContextNoise] and
    [behaviorRandomization] is not [false]; the smaller variant's payload
    never holds one. *)
Theorem random_calls_only_in_noise_blocks (o : StealthConfig) (w : World) :
  (exists p,
     returned (Enhanced.generateStealthScript (Object o) w) = Some p /\
     (includes p "Math.random()" = true <->
      exists k, In k noise_keys /\ o !! k <> Some (Bool false))) /\
  (exists p,
     returned (Basic.generateStealthScript (Object o) w) = Some p /\
     includes p "Math.random()" = false).
Proof.
  split; eexists.
  - split; [apply Enhanced_script_returned; discriminate|]. cbn [default_parameter].
    apply mentioned_iff; vm_compute; first [reflexivity | discriminate].
  - split; [apply Basic_script_returned; discriminate|]. cbn [default_parameter].
    apply not_true_is_false. intros H.
    apply (mentioned_iff o Basic.catalog "Math.random()" []) in H as [k [[] _]];
      vm_compute; first [reflexivity | discriminate].
Qed.

(** X10.  The flags depend on the first number drawn and on nothing else:
    two worlds whose sources agree on their first number get the same
    sequence, whatever their configuration, array and later numbers; each
    call uses up two numbers of the source and leaves the rest of the world
    alone. *)
Theorem flags_depend_on_first_draw (w1 w2 : World) :
  random w1 0%nat = random w2 0%nat ->
  returned (Enhanced.generateStealthArgs w1) = returned (Enhanced.generateStealthArgs w2) /\
  world_after (Enhanced.generateStealthArgs w1) =
    Some {| config := config w1; scripts := scripts w1;
            random := fun n => random w1 (2 + n)%nat |} /\
  world_after (Basic.generateStealthArgs w1) = Some w1.
Proof.
  intros H. rewrite !Enhanced_args_run, H. cbn [returned world_after].
  split; [reflexivity|]. split; reflexivity.
Qed.

(** X10, witness: two worlds that differ in everything but the first
    number. *)
Lemma flags_depend_on_first_draw_witness :
  let w1 := world_yielding zero in
  let w2 := {| config := Object all_false; scripts := ["left over"];
               random := fun n => match n with O => zero | _ => almost_one end |} in
  returned (Enhanced.generateStealthArgs w1) = returned (Enhanced.generateStealthArgs w2) /\
  world_after (Enhanced.generateStealthArgs w1) =
    Some {| config := config w1; scripts := scripts w1;
            random := fun n => random w1 (2 + n)%nat |} /\
  world_after (Basic.generateStealthArgs w1) = Some w1.
Proof.
  intros w1 w2. apply (flags_depend_on_first_draw w1 w2). reflexivity.
Defined.

(** X11.  The two generators do not interfere: a call of
    [generateStealthScript] first does not change what
    [generateStealthArgs] returns, and a call of [generateStealthArgs] first
    (which uses up random numbers) does not change the payload. *)
Theorem generators_do_not_interfere (o : StealthConfig) (w : World) :
  returned ((Enhanced.generateStealthScript (Object o) ;; Enhanced.generateStealthArgs) w) =
  returned (Enhanced.generateStealthArgs w) /\
  returned ((Enhanced.generateStealthArgs ;; Enhanced.generateStealthScript (Object o)) w) =
  returned (Enhanced.generateStealthScript (Object o) w).
Proof.
  unfold mbind, M_bind. split.
  - rewrite Enhanced_script_run by discriminate. rewrite !Enhanced_args_run. reflexivity.
  - rewrite Enhanced_args_run. apply Enhanced_script_world_independent.
Qed.
